(** * scrape_boarddoc_meetings.py: a shallow embedding and its properties

    The module has four functions that post a form to a BoardDocs site and
    reshape the reply.  The embedding keeps the three that carry logic:

    - [get_boarddoc_meetings]    (the meeting-list fetcher),
    - [process_boarddoc_meeting] (the agenda extractor),
    - [process_boarddoc_district] (the district orchestrator).

    What the libraries do is modelled as far as the functions depend on it:
    Python values keep their dynamic type ([str] is not [NavigableString]),
    a pandas frame is a list of labelled rows with its column names, a
    BeautifulSoup document is a tree of tags and strings, a raised exception
    is a [Raise] result, and every HTTP request is appended to a log that an
    exception does not roll back.  Strings are ASCII strings; JSON field
    values are strings or null; comments, text read by a tag that itself lies
    inside a [template] or ruby annotation, and the size limit of [int] on
    very long digit strings are outside the model. *)

From Stdlib Require Import List String Ascii ZArith Lia Bool Arith.
Import ListNotations.

Local Open Scope string_scope.
Local Open Scope list_scope.

(** ** Exceptions and results *)

Inductive exn : Type :=
| RequestException
| JSONDecodeError
| KeyError
| TypeError
| ValueError
| OverflowError
| AttributeError
| UnboundLocalError.

Inductive result (A : Type) : Type :=
| Ok (a : A)
| Raise (e : exn).

Arguments Ok {A} a.
Arguments Raise {A} e.

Definition rbind {A B} (r : result A) (k : A -> result B) : result B :=
  match r with
  | Ok a => k a
  | Raise e => Raise e
  end.

(** A left-to-right loop whose body may raise. *)
Fixpoint rfold {A B} (body : B -> A -> result B) (l : list A) (acc : B)
  : result B :=
  match l with
  | [] => Ok acc
  | x :: rest => rbind (body acc x) (rfold body rest)
  end.

Fixpoint rmap {A B} (f : A -> result B) (l : list A) : result (list B) :=
  match l with
  | [] => Ok []
  | x :: rest =>
      rbind (f x) (fun y => rbind (rmap f rest) (fun ys => Ok (y :: ys)))
  end.

(** ** Requests: an exception monad over a log of the requests made *)

(** A request is the URL and the form body of one [requests.post]. *)
Definition request : Type := (string * string)%type.

Definition io (A : Type) : Type := list request -> result A * list request.

Definition ret {A} (a : A) : io A := fun log => (Ok a, log).
Definition raise {A} (e : exn) : io A := fun log => (Raise e, log).
Definition lift {A} (r : result A) : io A := fun log => (r, log).

Definition bind {A B} (m : io A) (k : A -> io B) : io B :=
  fun log =>
    match m log with
    | (Ok a, log') => k a log'
    | (Raise e, log') => (Raise e, log')
    end.

Declare Scope io_scope.
Delimit Scope io_scope with io.
Notation "x <- m ;; k" := (bind m (fun x => k))
  (at level 100, m at next level, right associativity) : io_scope.

(** [for x in l: acc = body(acc, x)]. *)
Fixpoint for_each {A B} (body : B -> A -> io B) (l : list A) (acc : B)
  : io B :=
  match l with
  | [] => ret acc
  | x :: rest => bind (body acc x) (for_each body rest)
  end.

(** ** Python values *)

(** The values the functions handle: [None], a [str], a BeautifulSoup
    [NavigableString] (a subclass of [str]), and a list of [str] (the value
    of a multi-valued HTML attribute such as [class]). *)
Inductive pyval : Type :=
| PyNone
| PyStr (s : string)
| PyNavStr (s : string)
| PyList (l : list string).

(** [type(v) is str]: an identity test on the class, false on a subclass. *)
Definition type_is_str (v : pyval) : bool :=
  match v with
  | PyStr _ => true
  | _ => false
  end.

(** [v == w]. *)
Definition py_eqb (v w : pyval) : bool :=
  match v, w with
  | PyNone, PyNone => true
  | (PyStr a | PyNavStr a), (PyStr b | PyNavStr b) => String.eqb a b
  | PyList a, PyList b =>
      if list_eq_dec string_dec a b then true else false
  | _, _ => false
  end.

(** [pandas.isna(v)] on an object column. *)
Definition isna (v : pyval) : bool :=
  match v with
  | PyNone => true
  | _ => false
  end.

(** ** [int(s)] on an ASCII string *)

Definition newline : ascii := "010"%char.

Definition is_space (c : ascii) : bool :=
  let n := nat_of_ascii c in
  (Nat.leb 9 n && Nat.leb n 13) || Nat.eqb n 32.

Definition digit_of (c : ascii) : option Z :=
  let n := nat_of_ascii c in
  if Nat.leb 48 n && Nat.leb n 57 then Some (Z.of_nat (n - 48)) else None.

Fixpoint all_space (s : string) : bool :=
  match s with
  | EmptyString => true
  | String c r => is_space c && all_space r
  end.

Fixpoint lstrip (s : string) : string :=
  match s with
  | EmptyString => EmptyString
  | String c r => if is_space c then lstrip r else s
  end.

(** The digits after the first one: a digit, or one underscore and a
    digit, repeatedly; then only white space up to the end. *)
Fixpoint more_digits (acc : Z) (s : string) : option Z :=
  match s with
  | EmptyString => Some acc
  | String c r =>
      match digit_of c with
      | Some d => more_digits (10 * acc + d) r
      | None =>
          if Ascii.eqb c "_" then
            match r with
            | String c' r' =>
                match digit_of c' with
                | Some d => more_digits (10 * acc + d) r'
                | None => None
                end
            | EmptyString => None
            end
          else if all_space s then Some acc else None
      end
  end.

Definition unsigned_int (s : string) : option Z :=
  match s with
  | String c r =>
      match digit_of c with
      | Some d => more_digits d r
      | None => None
      end
  | EmptyString => None
  end.

Definition py_int (s : string) : option Z :=
  match lstrip s with
  | String "+" r => unsigned_int r
  | String "-" r => option_map Z.opp (unsigned_int r)
  | t => unsigned_int t
  end.

(** [int(v)]. *)
Definition int_of (v : pyval) : result Z :=
  match v with
  | PyStr s | PyNavStr s =>
      match py_int s with
      | Some z => Ok z
      | None => Raise ValueError
      end
  | _ => Raise TypeError
  end.

(** ** Strings *)

Fixpoint drop (n : nat) (s : string) : string :=
  match n, s with
  | S k, String _ r => drop k r
  | _, _ => s
  end.

(** [needle in hay] on two strings. *)
Fixpoint contains (needle hay : string) : bool :=
  prefix needle hay ||
  match hay with
  | EmptyString => false
  | String _ r => contains needle r
  end.

(** ** [re.search("(?<=Subject\n).+", text)] *)

Definition Subject_label : string := "Subject" ++ String newline "".

(** What [.+] matches at the start of [s]: the characters up to the next
    line feed. *)
Fixpoint line_of (s : string) : string :=
  match s with
  | EmptyString => EmptyString
  | String c r => if Ascii.eqb c newline then EmptyString else String c (line_of r)
  end.

(** The leftmost position preceded by the label at which [.+] matches at
    least one character; [None] when the search finds nothing. *)
Fixpoint search_subject (text : string) : option string :=
  match text with
  | EmptyString => None
  | String _ r =>
      if prefix Subject_label text then
        match line_of (drop 8 text) with
        | EmptyString => search_subject r
        | l => Some l
        end
      else search_subject r
  end.

(** [re.search(...)[0]]: subscripting the [None] of a failed search raises. *)
Definition subject_of (text : string) : result string :=
  match search_subject text with
  | Some l => Ok l
  | None => Raise TypeError
  end.

(** ** The parsed document *)

(** A node of the tree [BeautifulSoup(content, "html.parser")] builds: a
    string, or a tag with its attribute dictionary and its contents. *)
#[warnings="-register-all"]
Inductive node : Type :=
| Text (s : string)
| Tag (name : string) (attrs : list (string * pyval)) (contents : list node).

(** A tag together with its ancestors, the nearest first. *)
Definition located : Type := (list node * node)%type.

Definition tag_name (n : node) : string :=
  match n with
  | Text _ => ""
  | Tag nm _ _ => nm
  end.

Definition attrs_of (n : node) : list (string * pyval) :=
  match n with
  | Text _ => []
  | Tag _ a _ => a
  end.

Fixpoint lookup (k : string) (d : list (string * pyval)) : option pyval :=
  match d with
  | [] => None
  | (k', v) :: rest => if String.eqb k k' then Some v else lookup k rest
  end.

(** [tag.has_attr(k)]. *)
Definition has_attr (n : node) (k : string) : bool :=
  match lookup k (attrs_of n) with
  | Some _ => true
  | None => false
  end.

(** [tag.attrs[k]] and [tag[k]]. *)
Definition get_attr (n : node) (k : string) : result pyval :=
  match lookup k (attrs_of n) with
  | Some v => Ok v
  | None => Raise KeyError
  end.

(** The tags whose strings the parser puts in a class of their own
    ([Script], [Stylesheet], [TemplateString], [RubyTextString],
    [RubyParenthesisString]): every string below such a tag is of that class
    and not a plain [NavigableString]. *)
Definition string_container (n : node) : bool :=
  match n with
  | Text _ => false
  | Tag nm _ _ => existsb (String.eqb nm) ["script"; "style"; "template"; "rt"; "rp"]
  end.

(** [tag.text], [soup.get_text()]: the plain strings below, concatenated;
    the strings below a [string_container] are left out. *)
Fixpoint text_of (n : node) : string :=
  match n with
  | Text s => s
  | Tag _ _ cs =>
      String.concat "" (map (fun c => if string_container c then "" else text_of c) cs)
  end.

Definition get_text (soup : list node) : string :=
  String.concat "" (map (fun c => if string_container c then "" else text_of c) soup).

(** [tag.string]: the single string below a chain of only children. *)
Fixpoint string_of (n : node) : pyval :=
  match n with
  | Text s => PyNavStr s
  | Tag _ _ [c] => string_of c
  | Tag _ _ _ => PyNone
  end.

(** The tags at and below [n] in document order, each with its ancestors. *)
Fixpoint walk (anc : list node) (n : node) : list located :=
  match n with
  | Text _ => []
  | Tag _ _ cs => (anc, n) :: flat_map (walk (n :: anc)) cs
  end.

(** The tags strictly below [n]. *)
Definition descendants (anc : list node) (n : node) : list located :=
  match n with
  | Text _ => []
  | Tag _ _ cs => flat_map (walk (n :: anc)) cs
  end.

Definition soup_tags (soup : list node) : list located :=
  flat_map (walk []) soup.

(** How a search value matches an attribute value: a string by equality,
    a multi-valued attribute if one of its values or their joined text
    matches, a missing attribute never. *)
Definition attr_is (want : string) (v : option pyval) : bool :=
  match v with
  | Some (PyStr s) | Some (PyNavStr s) => String.eqb s want
  | Some (PyList l) =>
      existsb (fun s => String.eqb s want) l || String.eqb (String.concat " " l) want
  | _ => false
  end.

(** The same for a compiled pattern that is a plain word: [pattern.search]. *)
Definition attr_search (word : string) (v : option pyval) : bool :=
  match v with
  | Some (PyStr s) | Some (PyNavStr s) => contains word s
  | Some (PyList l) => existsb (contains word) l || contains word (String.concat " " l)
  | _ => false
  end.

Definition is_tag (nm : string) (n : node) : bool := String.eqb (tag_name n) nm.

Definition has_class (nm cls : string) (n : node) : bool :=
  is_tag nm n && attr_is cls (lookup "class" (attrs_of n)).

(** [soup.find_all(nm)] and [soup.find_all(nm, {"class": cls})]. *)
Definition find_all (nm : string) (soup : list node) : list located :=
  filter (fun t => is_tag nm (snd t)) (soup_tags soup).

Definition find_all_class (nm cls : string) (soup : list node) : list located :=
  filter (fun t => has_class nm cls (snd t)) (soup_tags soup).

(** [soup.find(nm, {"class": cls})]: the first match, or [None]. *)
Definition find_class (nm cls : string) (soup : list node) : option node :=
  option_map snd (hd_error (find_all_class nm cls soup)).

(** [soup.find_all("a", href=re.compile(word))]. *)
Definition find_all_href (word : string) (soup : list node) : list located :=
  filter (fun t => is_tag "a" (snd t) && attr_search word (lookup "href" (attrs_of (snd t))))
         (soup_tags soup).

(** [tag.findChild(nm)] and [tag.findChild()]: aliases of [find], the first
    tag below [tag] in document order (of that name), or [None]. *)
Definition findChild_named (nm : string) (t : located) : option node :=
  option_map snd (hd_error (filter (fun d => is_tag nm (snd d)) (descendants (fst t) (snd t)))).

Definition findChild (t : located) : option node :=
  option_map snd (hd_error (descendants (fst t) (snd t))).

(** [tag.find_parent(nm, {"class": cls})]: the nearest matching ancestor. *)
Definition find_parent (nm cls : string) (t : located) : option node :=
  List.find (has_class nm cls) (fst t).

(** [x in v] for a string [x]: membership in a list, substring of a string. *)
Definition py_in (x : string) (v : pyval) : result bool :=
  match v with
  | PyList l => Ok (existsb (String.eqb x) l)
  | PyStr s | PyNavStr s => Ok (contains x s)
  | PyNone => Raise TypeError
  end.

(** Attribute access on what may be [None]. *)
Definition non_none {A} (o : option A) : result A :=
  match o with
  | Some a => Ok a
  | None => Raise AttributeError
  end.

Declare Scope result_scope.
Delimit Scope result_scope with result.
Notation "x <- m ;; k" := (rbind m (fun x => k))
  (at level 100, m at next level, right associativity) : result_scope.

(** ** The JSON feed and the frames built from it *)

(** One object of the meeting feed; [dict.get(k, None)]. *)
Definition json_object : Type := list (string * pyval).

Definition dict_get (d : json_object) (k : string) : pyval :=
  match lookup k d with
  | Some v => v
  | None => PyNone
  end.

Record row : Type := mk_row {
  meeting_id : pyval;
  committee_id : pyval;
  numberdate : pyval;
  name : pyval
}.

(** A frame: its column names and its rows, each under its index label. *)
Record DataFrame : Type := mk_frame {
  columns : list string;
  rows : list (nat * row)
}.

Definition meeting_columns : list string :=
  ["meeting_id"; "committee_id"; "numberdate"; "name"].

Definition enumerate {A} (l : list A) : list (nat * A) :=
  combine (seq 0 (List.length l)) l.

(** [pd.DataFrame(records)]: the columns are the keys of the records, so a
    frame built from no record has no column. *)
Definition frame_of_records (records : list row) : DataFrame :=
  {| columns := match records with [] => [] | _ :: _ => meeting_columns end;
     rows := enumerate records |}.

Definition has_column (c : string) (df : DataFrame) : bool :=
  existsb (String.eqb c) (columns df).

(** [df[c]]: the values of column [c], or [KeyError]. *)
Definition column (c : string) (sel : row -> pyval) (df : DataFrame)
  : result (list (nat * pyval)) :=
  if has_column c df
  then Ok (map (fun r => (fst r, sel (snd r))) (rows df))
  else Raise KeyError.

(** [df.dropna(subset=["meeting_id"], inplace=True)]. *)
Definition dropna_meeting_id (df : DataFrame) : result DataFrame :=
  if has_column "meeting_id" df
  then Ok {| columns := columns df;
             rows := filter (fun r => negb (isna (meeting_id (snd r)))) (rows df) |}
  else Raise KeyError.

Definition min_int64 : Z := (- 9223372036854775808)%Z.
Definition max_int64 : Z := 9223372036854775807%Z.

(** One element of [series.astype(int)]. *)
Definition int64_of (v : pyval) : result Z :=
  (z <- int_of v ;;
   if (min_int64 <=? z)%Z && (z <=? max_int64)%Z then Ok z else Raise OverflowError)%result.

(** [df["numberdate"].astype(int)]. *)
Definition numberdate_ints (df : DataFrame) : result (list Z) :=
  (col <- column "numberdate" numberdate df ;;
   rmap (fun v => int64_of (snd v)) col)%result.

(** [df[mask]]: the rows under a true entry of the mask. *)
Definition select (mask : list bool) (df : DataFrame) : DataFrame :=
  {| columns := columns df;
     rows := map snd (filter fst (combine mask (rows df))) |}.

(** [pd.concat([a, b])]. *)
Definition pd_concat (a b : DataFrame) : DataFrame :=
  {| columns :=
       columns a ++ filter (fun c => negb (existsb (String.eqb c) (columns a))) (columns b);
     rows := rows a ++ rows b |}.

(** Keep the first row of every meeting identifier. *)
Fixpoint keep_first (seen : list pyval) (l : list (nat * row)) : list (nat * row) :=
  match l with
  | [] => []
  | r :: rest =>
      if existsb (py_eqb (meeting_id (snd r))) seen
      then keep_first seen rest
      else r :: keep_first (meeting_id (snd r) :: seen) rest
  end.

(** [df.drop_duplicates(subset=["meeting_id"], inplace=True)]. *)
Definition drop_duplicates_meeting_id (df : DataFrame) : result DataFrame :=
  if has_column "meeting_id" df
  then Ok {| columns := columns df; rows := keep_first [] (rows df) |}
  else Raise KeyError.

(** [df.reset_index(drop=True, inplace=True)]. *)
Definition reset_index (df : DataFrame) : DataFrame :=
  {| columns := columns df; rows := enumerate (map snd (rows df)) |}.

(** [series[i]]: the value under label [i]. *)
Fixpoint at_label (i : nat) (col : list (nat * pyval)) : result pyval :=
  match col with
  | [] => Raise KeyError
  | (j, v) :: rest => if Nat.eqb i j then Ok v else at_label i rest
  end.

(** [a + b] where [a] is a [str]. *)
Definition str_add (a : string) (b : pyval) : result string :=
  match b with
  | PyStr s | PyNavStr s => Ok (a ++ s)%string
  | _ => Raise TypeError
  end.

(** ** Agendas *)

Definition file_entry : Type := (string * pyval * pyval)%type.

Record agenda : Type := mk_agenda {
  agenda_meeting_id : pyval;
  agenda_name : pyval;
  agenda_date : pyval;
  agenda_description : pyval;
  agenda_items : list string;
  agenda_full_text : string;
  agenda_files : list file_entry
}.

(** ** The remote site *)

Inductive reply (A : Type) : Type :=
| Reply (a : A)
| Malformed
| Unreachable.

Arguments Reply {A} a.
Arguments Malformed {A}.
Arguments Unreachable {A}.

(** What the site answers to a form posted to a URL: the meeting feed
    once decoded, and the agenda page once parsed. *)
Record remote : Type := mk_remote {
  meetings_feed : string -> string -> reply (list json_object);
  agenda_page : string -> string -> option (list node)
}.

(** ** The three functions *)

Section Scraper.

Variable web : remote.

(** [json.loads(requests.post(url, data=data).text)]. *)
Definition post_json (url data : string) : io (list json_object) :=
  fun log =>
    (match meetings_feed web url data with
     | Reply j => Ok j
     | Malformed => Raise JSONDecodeError
     | Unreachable => Raise RequestException
     end, log ++ [(url, data)]).

(** [BeautifulSoup(requests.post(url, data=data).content, "html.parser")]. *)
Definition post_html (url data : string) : io (list node) :=
  fun log =>
    (match agenda_page web url data with
     | Some soup => Ok soup
     | None => Raise RequestException
     end, log ++ [(url, data)]).

(** *** [get_boarddoc_meetings] *)

Definition meetings_url (site : string) : string :=
  ("https://go.boarddocs.com/" ++ site ++ "/Board.nsf/BD-GetMeetingsList?open")%string.

Definition meetings_data (committee_id : string) : string :=
  ("current_committee_id=" ++ committee_id)%string.

(** The comprehension that projects each object of the feed. *)
Definition project (committee_id : string) (meeting : json_object) : row :=
  {| meeting_id := dict_get meeting "unique";
     committee_id := PyStr committee_id;
     numberdate := dict_get meeting "numberdate";
     name := dict_get meeting "name" |}.

(** The [if type(date) is tuple:] block; [date] is [None] when the argument
    is not a tuple. *)
Definition filter_by_date (date : option (pyval * pyval)) (meetings : DataFrame)
  : result DataFrame :=
  match date with
  | Some (d0, d1) =>
      if negb (type_is_str d0) && type_is_str d1 then
        (ds <- numberdate_ints meetings ;;
         hi <- int_of d1 ;;
         Ok (select (map (fun d => (d <=? hi)%Z) ds) meetings))%result
      else if type_is_str d0 && negb (type_is_str d1) then
        (ds <- numberdate_ints meetings ;;
         lo <- int_of d0 ;;
         Ok (select (map (fun d => (d >=? lo)%Z) ds) meetings))%result
      else if type_is_str d0 && type_is_str d1 then
        (ds <- numberdate_ints meetings ;;
         lo <- int_of d0 ;;
         ds' <- numberdate_ints meetings ;;
         hi <- int_of d1 ;;
         Ok (select (map (fun m => fst m && snd m)
                         (combine (map (fun d => (d >=? lo)%Z) ds)
                                  (map (fun d => (d <=? hi)%Z) ds')))
                    meetings))%result
      else Ok meetings
  | None => Ok meetings
  end.

Definition get_boarddoc_meetings (site committee_id : string)
  (date : option (pyval * pyval)) : io DataFrame :=
  let data := meetings_data committee_id in
  (meetings_json <- post_json (meetings_url site) data ;;
   let meetings := frame_of_records (map (project committee_id) meetings_json) in
   meetings <- lift (dropna_meeting_id meetings) ;;
   lift (filter_by_date date meetings))%io.

(** *** [process_boarddoc_meeting] *)

Definition agenda_url (site : string) : string :=
  ("https://go.boarddocs.com/" ++ site ++ "/Board.nsf/PRINT-AgendaDetailed")%string.

(** [data = "id=" + meeting_id + "&" + "current_committee_id=" + committee_id]. *)
Definition agenda_data (committee_id meeting_id : pyval) : result string :=
  (a <- str_add "id=" meeting_id ;;
   str_add (a ++ "&" ++ "current_committee_id=")%string committee_id)%result.

(** The description: lines 96 to 101. *)
Definition description_of (soup : list node) : result pyval :=
  (d <- non_none (find_class "div" "print-meeting-description" soup) ;;
   if type_is_str (string_of d) then
     (d' <- non_none (find_class "div" "print-meeting-description" soup) ;;
      Ok (string_of d'))
   else Ok (PyStr ""))%result.

(** The body of the loop over [soup.find_all("div")]. *)
Definition item_step (agenda_items : list string) (div : located)
  : result (list string) :=
  if has_attr (snd div) "aria-level" then
    (level <- get_attr (snd div) "aria-level" ;;
     if py_eqb level (PyStr "1") then
       if existsb (String.eqb (text_of (snd div))) agenda_items
       then Ok agenda_items
       else Ok (agenda_items ++ [text_of (snd div)])
     else Ok agenda_items)%result
  else if has_attr (snd div) "class" then
    (cls <- get_attr (snd div) "class" ;;
     found <- py_in "agendaorder" cls ;;
     if found : bool then
       (item <- subject_of (text_of (snd div)) ;;
        Ok (agenda_items ++ [item]))
     else Ok agenda_items)%result
  else Ok agenda_items.

(** The body of the loop over the ["public-file"] containers. *)
Definition public_file_step (files : list file_entry) (div : located)
  : result (list file_entry) :=
  match findChild_named "a" div with
  | Some file =>
      if has_attr file "href" then
        (parent <- non_none (find_parent "div" "agendaorder" div) ;;
         item <- subject_of (text_of parent) ;;
         href <- get_attr file "href" ;;
         Ok (files ++ [(item, PyStr (text_of file), href)]))%result
      else Ok files
  | None => Ok files
  end.

(** The body of the loop over the hyperlinks to ["legacy-content"]. *)
Definition legacy_step (files : list file_entry) (div : located)
  : result (list file_entry) :=
  (parent <- non_none (find_parent "div" "agendaorder" div) ;;
   item <- subject_of (text_of parent) ;;
   file <- non_none (findChild div) ;;
   filename <- (if has_attr file "alt" then get_attr file "alt" else Ok (PyStr "")) ;;
   href <- get_attr (snd div) "href" ;;
   Ok (files ++ [(item, filename, href)]))%result.

(** Everything [process_boarddoc_meeting] does with the parsed page. *)
Definition agenda_of_soup (meeting_id : pyval) (soup : list node) : result agenda :=
  (nm <- non_none (find_class "div" "print-meeting-name" soup) ;;
   dt <- non_none (find_class "div" "print-meeting-date" soup) ;;
   description <- description_of soup ;;
   items <- rfold item_step (find_all "div" soup) [] ;;
   files <- rfold public_file_step (find_all_class "div" "public-file" soup) [] ;;
   files <- rfold legacy_step (find_all_href "legacy-content" soup) files ;;
   Ok {| agenda_meeting_id := meeting_id;
         agenda_name := string_of nm;
         agenda_date := string_of dt;
         agenda_description := description;
         agenda_items := items;
         agenda_full_text := get_text soup;
         agenda_files := files |})%result.

Definition process_boarddoc_meeting (site : string) (committee_id meeting_id : pyval)
  : io agenda :=
  (data <- lift (agenda_data committee_id meeting_id) ;;
   soup <- post_html (agenda_url site) data ;;
   lift (agenda_of_soup meeting_id soup))%io.

(** *** [process_boarddoc_district] *)

(** [pd.DataFrame(columns=[...])]. *)
Definition empty_frame : DataFrame :=
  {| columns := meeting_columns; rows := [] |}.

(** The [if]/[elif] that assigns [meetings]; [None] when neither branch
    runs and the variable stays unbound. *)
Definition fetch_all (site : string) (committee_ids : list string)
  (date : option (pyval * pyval)) : io (option DataFrame) :=
  match committee_ids with
  | [] => ret None
  | [c] => (m <- get_boarddoc_meetings site c date ;; ret (Some m))%io
  | _ :: _ :: _ =>
      (m <- for_each
              (fun meetings c =>
                 (m <- get_boarddoc_meetings site c date ;;
                  ret (pd_concat meetings m))%io)
              committee_ids empty_frame ;;
       ret (Some m))%io
  end.

(** Reading a local variable. *)
Definition local {A} (v : option A) : result A :=
  match v with
  | Some a => Ok a
  | None => Raise UnboundLocalError
  end.

(** The body of [for i in range(len(meetings))]. *)
Definition agenda_step (site : string) (meetings : DataFrame)
  (agendas : list agenda) (i : nat) : io (list agenda) :=
  (c <- lift (col <- column "committee_id" committee_id meetings ;; at_label i col)%result ;;
   m <- lift (col <- column "meeting_id" meeting_id meetings ;; at_label i col)%result ;;
   a <- process_boarddoc_meeting site c m ;;
   ret (agendas ++ [a]))%io.

Definition process_boarddoc_district (site : string) (committee_ids : list string)
  (date : option (pyval * pyval)) : io (DataFrame * list agenda) :=
  (meetings <- fetch_all site committee_ids date ;;
   meetings <- lift (local meetings) ;;
   meetings <- lift (drop_duplicates_meeting_id meetings) ;;
   let meetings := reset_index meetings in
   agendas <- for_each (agenda_step site meetings)
                (seq 0 (List.length (rows meetings))) [] ;;
   ret (meetings, agendas))%io.

End Scraper.

(** ** Notions the properties are stated with *)

Definition meetings_request (site c : string) : request :=
  (meetings_url site, meetings_data c).

(** What one call of the fetcher returns, and what one call of the
    extractor returns for the meeting of a row. *)
Definition fetched (web : remote) (site : string) (date : option (pyval * pyval))
  (c : string) : result DataFrame :=
  fst (get_boarddoc_meetings web site c date []).

Definition agenda_for (web : remote) (site : string) (r : row) : result agenda :=
  fst (process_boarddoc_meeting web site (committee_id r) (meeting_id r) []).

(** The requests one call of the extractor makes for the meeting of a row. *)
Definition agenda_requests (web : remote) (site : string) (r : row) : list request :=
  snd (process_boarddoc_meeting web site (committee_id r) (meeting_id r) []).

Definition agenda_request (site : string) (r : row) : request :=
  (agenda_url site,
   match agenda_data (committee_id r) (meeting_id r) with
   | Ok d => d
   | Raise _ => ""
   end).

(** The records of a feed that carry an identifier, under their labels. *)
Definition identified (c : string) (feed : list json_object) : list (nat * row) :=
  filter (fun r => negb (isna (meeting_id (snd r)))) (enumerate (map (project c) feed)).

(** The date of a row as an integer. *)
Definition dated (r : nat * row) : Prop :=
  exists d, int64_of (numberdate (snd r)) = Ok d.

Definition date_int (r : nat * row) : Z :=
  match int64_of (numberdate (snd r)) with
  | Ok d => d
  | Raise _ => 0%Z
  end.

(** The two ways the scan over the [div] elements adds an item. *)
Definition level_one (div : located) : Prop :=
  exists v, lookup "aria-level" (attrs_of (snd div)) = Some v /\ py_eqb v (PyStr "1") = true.

Definition ordering_class (div : located) : Prop :=
  exists cls, lookup "class" (attrs_of (snd div)) = Some cls /\ py_in "agendaorder" cls = Ok true.

Definition ordering_rule (div : located) : Prop :=
  lookup "aria-level" (attrs_of (snd div)) = None /\ ordering_class div.

(** The first child element of a tag. *)
Definition is_element (n : node) : bool :=
  match n with
  | Text _ => false
  | Tag _ _ _ => true
  end.

Definition contents_of (n : node) : list node :=
  match n with
  | Text _ => []
  | Tag _ _ cs => cs
  end.

Definition first_child_element (n : node) : option node :=
  List.find is_element (contents_of n).

(** The file entry a hyperlink to legacy content stands for. *)
Definition legacy_entry (link : located) (f : file_entry) : Prop :=
  exists parent child,
    find_parent "div" "agendaorder" link = Some parent /\
    search_subject (text_of parent) = Some (fst (fst f)) /\
    first_child_element (snd link) = Some child /\
    snd (fst f) = match lookup "alt" (attrs_of child) with
                  | Some alt => alt
                  | None => PyStr ""
                  end /\
    lookup "href" (attrs_of (snd link)) = Some (snd f).

(** [sub] lists some of the elements of [l], in the order of [l]. *)
Inductive subsequence {A : Type} : list A -> list A -> Prop :=
| sub_nil : subsequence [] []
| sub_skip x sub l : subsequence sub l -> subsequence sub (x :: l)
| sub_take x sub l : subsequence sub l -> subsequence (x :: sub) (x :: l).

(** ** A sample site *)

Module Sample.

Definition site : string := "vbsa/arlington".

Definition meeting (id date : string) : json_object :=
  [("unique", PyStr id); ("numberdate", PyStr date); ("name", PyStr "Regular Meeting")].

(** A record of the feed that has no identifier and no usable date. *)
Definition anonymous : json_object :=
  [("numberdate", PyStr "n/a"); ("name", PyStr "Draft")].

Definition feed_A : list json_object := [meeting "1" "20240101"].
Definition feed_B : list json_object := [meeting "1" "20240101"; meeting "2" "20240201"].
Definition feed_C : list json_object := [anonymous; meeting "3" "20240301"].

Definition line (s : string) : string := (s ++ String newline "")%string.

Definition header (description : list node) : list node :=
  [Tag "div" [("class", PyList ["print-meeting-name"])] [Text "Regular Meeting"];
   Tag "div" [("class", PyList ["print-meeting-date"])] [Text "Jan 1, 2024"];
   Tag "div" [("class", PyList ["print-meeting-description"])] description].

Definition heading (t : string) : node :=
  Tag "div" [("aria-level", PyStr "1")] [Text t].

Definition ordered (extra : list (string * pyval)) (subject : string) (inside : list node)
  : node :=
  Tag "div" (extra ++ [("class", PyList ["item"; "agendaorder"])])
      (Text (line "Subject" ++ line subject ++ line "Type") :: inside).

Definition public_file (nm href : string) : node :=
  Tag "div" [("class", PyList ["public-file"])] [Tag "a" [("href", PyStr href)] [Text nm]].

Definition legacy_link (href : string) (inside : list node) : node :=
  Tag "a" [("href", PyStr href)] inside.

Definition image (attrs : list (string * pyval)) : node := Tag "img" attrs [].

(** An agenda page with the three header elements, headings of the top
    level, and items with files of both kinds. *)
Definition page : list node :=
  [Tag "html" [] [Tag "body" []
     (header [Text "Held in the board room"] ++
      [heading "1. Opening"; heading "1. Opening"; heading "1. Opening";
       ordered [] "Budget" [public_file "budget.pdf" "/files/budget.pdf";
                            legacy_link "/legacy-content/a" [image [("alt", PyStr "old.doc")]];
                            legacy_link "/legacy-content/b" [Text "scan"; image []]];
       ordered [] "Budget" []])]].

(** The same header with an item that also carries a level below the top. *)
Definition page_levelled_item : list node :=
  header [] ++ [ordered [("aria-level", PyStr "2")] "Budget" []].

(** A page without the description element. *)
Definition page_no_description : list node :=
  [Tag "div" [("class", PyList ["print-meeting-name"])] [Text "Regular Meeting"];
   Tag "div" [("class", PyList ["print-meeting-date"])] [Text "Jan 1, 2024"]].

(** A page with a hyperlink to legacy content that has no child element. *)
Definition page_bare_link : list node :=
  header [] ++ [ordered [] "Budget" [legacy_link "/legacy-content/c" [Text "scan"]]].

(** Meeting 2 has a page without its header; the other meetings have [page]. *)
Definition web : remote :=
  {| meetings_feed := fun _ data =>
       if String.eqb data "current_committee_id=A" then Reply feed_A
       else if String.eqb data "current_committee_id=B" then Reply feed_B
       else if String.eqb data "current_committee_id=C" then Reply feed_C
       else if String.eqb data "current_committee_id=empty" then Reply []
       else Unreachable;
     agenda_page := fun _ data =>
       if prefix "id=2&" data then Some [] else Some page |}.

End Sample.

(** The agenda the extractor builds from [Sample.page] for meeting 1. *)
Definition sample_agenda (meeting_id : string) : agenda :=
  {| agenda_meeting_id := PyStr meeting_id;
     agenda_name := PyNavStr "Regular Meeting";
     agenda_date := PyNavStr "Jan 1, 2024";
     agenda_description := PyStr "";
     agenda_items := ["1. Opening"; "Budget"; "Budget"];
     agenda_full_text := get_text Sample.page;
     agenda_files :=
       [("Budget", PyStr "budget.pdf", PyStr "/files/budget.pdf");
        ("Budget", PyStr "old.doc", PyStr "/legacy-content/a");
        ("Budget", PyStr "", PyStr "/legacy-content/b")] |}.

Definition sample_row (label : nat) (id c date : string) : nat * row :=
  (label, mk_row (PyStr id) (PyStr c) (PyStr date) (PyStr "Regular Meeting")).

(** [l] is the text that follows the label and its line feed somewhere in
    [text], up to the end of that line. *)
Definition subject_line (text l : string) : Prop :=
  exists pre post,
    text = (pre ++ Subject_label ++ l ++ post)%string /\
    l <> "" /\
    (forall a b, l <> (a ++ String newline b)%string) /\
    (post = "" \/ exists post', post = String newline post').

(** The item a [div] adds under the rule of the ["agendaorder"] class: none
    when the [div] has an [aria-level] attribute. *)
Definition ordering_subject (div : located) : list string :=
  match lookup "aria-level" (attrs_of (snd div)), lookup "class" (attrs_of (snd div)) with
  | None, Some cls =>
      match py_in "agendaorder" cls, search_subject (text_of (snd div)) with
      | Ok true, Some s => [s]
      | _, _ => []
      end
  | _, _ => []
  end.

(** [div] elements for the scan of the items, outside any page. *)
Definition heading_div (t : string) : located := ([], Sample.heading t).
Definition ordered_div (extra : list (string * pyval)) (subject : string) : located :=
  ([], Sample.ordered extra subject []).

(** [bound r]: [r] is not the error of reading an unassigned variable. *)
Definition bound {A} (r : result A) : Prop := r <> Raise UnboundLocalError.

Definition io_bound {A} (m : io A) : Prop := forall log, bound (fst (m log)).

Ltac inv H := inversion H; subst; clear H.

(** The pieces of [Sample.page] around its hyperlinks to legacy content. *)
Definition sample_link_a : node :=
  Sample.legacy_link "/legacy-content/a" [Sample.image [("alt", PyStr "old.doc")]].

Definition sample_link_b : node :=
  Sample.legacy_link "/legacy-content/b" [Text "scan"; Sample.image []].

Definition sample_item : node :=
  Sample.ordered [] "Budget"
    [Sample.public_file "budget.pdf" "/files/budget.pdf"; sample_link_a; sample_link_b].

Definition sample_body : node :=
  Tag "body" []
    (Sample.header [Text "Held in the board room"] ++
     [Sample.heading "1. Opening"; Sample.heading "1. Opening"; Sample.heading "1. Opening";
      sample_item; Sample.ordered [] "Budget" []]).

Definition sample_html : node := Tag "html" [] [sample_body].

(** The two hyperlinks, each with its ancestors. *)
Definition sample_legacy_links : list located :=
  [([sample_item; sample_body; sample_html], sample_link_a);
   ([sample_item; sample_body; sample_html], sample_link_b)].

(** A hyperlink ([a] tag) whose [href] holds the word ["legacy-content"]. *)
Definition legacy_hyperlink (t : located) : bool :=
  String.eqb (tag_name (snd t)) "a"
  && attr_search "legacy-content" (lookup "href" (attrs_of (snd t))).

(** Two items of the class that also carry the top level. *)
Definition page_top_level_items : list node :=
  Sample.header [] ++
  [Sample.ordered [("aria-level", PyStr "1")] "Budget" [];
   Sample.ordered [("aria-level", PyStr "1")] "Budget" []].

From Stdlib Require Import Sorted.

(** ** [get_boarddoc_minutes_embed] *)

Definition minutes_url (site : string) : string :=
  ("https://go.boarddocs.com/" ++ site ++ "/Board.nsf/BD-GetMinutes")%string.

(** The form body is built like the one of the agenda request; the reply
    is parsed by the same parser, and [post_html] answers by URL, so the page
    behind [minutes_url] is the minutes page. *)
Definition get_boarddoc_minutes_embed (web : remote) (site : string)
  (committee_id meeting_id : pyval) : io string :=
  (data <- lift (agenda_data committee_id meeting_id) ;;
   soup <- post_html web (minutes_url site) data ;;
   let text := get_text soup in
   ret text)%io.

(** ** More notions for the properties *)

(** The strings of a tree in document order, each marked with whether
    it lies below a [string_container]; [hidden] says whether the tree itself
    does. *)
Fixpoint marked_strings (hidden : bool) (n : node) : list (bool * string) :=
  match n with
  | Text s => [(hidden, s)]
  | Tag _ _ cs => flat_map (marked_strings (hidden || string_container n)) cs
  end.

Definition unmarked (l : list (bool * string)) : list string :=
  map snd (filter (fun p => negb (fst p)) l).

(** The strings of a page that lie below no [string_container]. *)
Definition plain_strings (soup : list node) : list string :=
  unmarked (flat_map (marked_strings false) soup).

(** A ["public-file"] container whose first hyperlink has a target. *)
Definition has_link (div : located) : bool :=
  match findChild_named "a" div with
  | Some file => has_attr file "href"
  | None => false
  end.

(** The file entry such a container stands for. *)
Definition public_entry (div : located) (f : file_entry) : Prop :=
  exists file parent,
    findChild_named "a" div = Some file /\
    find_parent "div" "agendaorder" div = Some parent /\
    search_subject (text_of parent) = Some (fst (fst f)) /\
    snd (fst f) = PyStr (text_of file) /\
    lookup "href" (attrs_of file) = Some (snd f).

(** The bounds of a date tuple convert where they are strings. *)
Definition bounds_convert (d0 d1 : pyval) : Prop :=
  (type_is_str d0 = true -> exists lo, int_of d0 = Ok lo) /\
  (type_is_str d1 = true -> exists hi, int_of d1 = Ok hi).

(** The text has a Subject line: the label, then a character that is not
    a line feed. *)
Definition has_subject_line (text : string) : Prop :=
  exists pre c rest,
    text = (pre ++ Subject_label ++ String c rest)%string /\ c <> newline.

(** [never e r]: the result [r] is not the exception [e]. *)
Definition never {A} (e : exn) (r : result A) : Prop := r <> Raise e.

(** Pages for the properties of the files. *)

(** A hyperlink to legacy content outside every item, after the header. *)
Definition page_stray_link : list node :=
  Sample.header [] ++ [Sample.legacy_link "/legacy-content/d" [Sample.image []]].

(** A file container inside an item whose text has no Subject line. *)
Definition page_unlabelled_item : list node :=
  Sample.header [] ++
  [Tag "div" [("class", PyList ["agendaorder"])]
       [Text "Subject: Budget"; Sample.public_file "budget.pdf" "/files/budget.pdf"]].

(** A container without hyperlink and one whose hyperlink has no target. *)
Definition page_unlinked_files : list node :=
  Sample.header [] ++
  [Tag "div" [("class", PyList ["public-file"])] [Text "withdrawn"];
   Tag "div" [("class", PyList ["public-file"])] [Tag "a" [("name", PyStr "top")] [Text "x"]]].

(** [x] occurs in [t]. *)
Definition within (x t : string) : Prop :=
  exists a b, t = (a ++ x ++ b)%string.

(** A site that publishes minutes for meeting 1 and, for the other
    meetings, a page that holds a script and nothing to read. *)
Definition minutes_page : list node :=
  [Tag "style" [] [Text "p{}"];
   Tag "p" [] [Text "Approved "; Tag "b" [] [Text "5-0"]];
   Tag "script" [] [Text "var a=1;"]].

Definition minutes_web : remote :=
  {| meetings_feed := fun _ _ => Unreachable;
     agenda_page := fun url data =>
       if String.eqb url (minutes_url Sample.site)
       then if prefix "id=1&" data then Some minutes_page
            else Some [Tag "script" [] [Text "var a=1;"]]
       else None |}.

(** The identifiers [keep_first] has seen after a pass over [l]. *)
Fixpoint seen_after (seen : list pyval) (l : list (nat * row)) : list pyval :=
  match l with
  | [] => seen
  | r :: rest =>
      if existsb (py_eqb (meeting_id (snd r))) seen
      then seen_after seen rest
      else seen_after (meeting_id (snd r) :: seen) rest
  end.

(** The element does not lie inside a [string_container]. *)
Definition outside_containers (t : located) : bool :=
  negb (existsb string_container (fst t)).

(** * Properties *)

(** ** The parsers of integers and of the Subject line *)

Example py_int_date : py_int "20240101" = Some 20240101%Z.
Proof. reflexivity. Qed.

Example py_int_loose : py_int " -1_0 " = Some (-10)%Z.
Proof. reflexivity. Qed.

Example py_int_bad :
  py_int "2024-01-01" = None /\ py_int "" = None /\ py_int "1__0" = None.
Proof. repeat split. Qed.

Example search_subject_line :
  search_subject ("1. Subject" ++ String newline ("Budget vote" ++ String newline "Type"))
  = Some "Budget vote".
Proof. reflexivity. Qed.

Example search_subject_skips_empty_line :
  search_subject (Subject_label ++ String newline (Subject_label ++ "x")) = Some "x".
Proof. reflexivity. Qed.

Example search_subject_none : search_subject "Subject: Budget" = None.
Proof. reflexivity. Qed.

(** ** Results and loops *)

Lemma rbind_ok {A B} (r : result A) (k : A -> result B) b :
  rbind r k = Ok b -> exists a, r = Ok a /\ k a = Ok b.
Proof. destruct r as [a|e]; simpl; [eauto | discriminate]. Qed.

Lemma rfold_app {A B} (body : B -> A -> result B) l1 l2 acc :
  rfold body (l1 ++ l2) acc = rbind (rfold body l1 acc) (rfold body l2).
Proof.
  revert acc. induction l1 as [|x l1 IH]; intros acc; simpl; [reflexivity|].
  destruct (body acc x); simpl; auto.
Qed.

(** A loop that ends normally has run its body normally on every element. *)
Lemma rfold_ok_each {A B} (body : B -> A -> result B) l acc out x :
  rfold body l acc = Ok out -> In x l -> exists a b, body a x = Ok b.
Proof.
  revert acc. induction l as [|y l IH]; intros acc H Hin; [destruct Hin|].
  simpl in H. apply rbind_ok in H as (a' & Hy & Hrest).
  destruct Hin as [->|Hin]; eauto.
Qed.

Lemma rmap_ok_length {A B} (f : A -> result B) l out :
  rmap f l = Ok out -> List.length out = List.length l.
Proof.
  revert out. induction l as [|x l IH]; intros out H; simpl in H.
  - inv H. reflexivity.
  - apply rbind_ok in H as (y & _ & H). apply rbind_ok in H as (ys & Hys & H).
    inv H. simpl. f_equal. eauto.
Qed.

(** ** Frames *)

Lemma enumerate_from_length {A} (l : list A) k :
  List.length (combine (seq k (List.length l)) l) = List.length l.
Proof. rewrite length_combine, length_seq. apply Nat.min_id. Qed.

Lemma length_enumerate {A} (l : list A) : List.length (enumerate l) = List.length l.
Proof. apply enumerate_from_length. Qed.

Lemma combine_map_fst_seq {A} (l : list A) k :
  map fst (combine (seq k (List.length l)) l) = seq k (List.length l).
Proof.
  revert k. induction l as [|x l IH]; intros k; simpl; [reflexivity|].
  f_equal. apply IH.
Qed.

Lemma map_snd_combine_seq {A} (l : list A) k :
  map snd (combine (seq k (List.length l)) l) = l.
Proof.
  revert k. induction l as [|x l IH]; intros k; simpl; [reflexivity|].
  f_equal. apply IH.
Qed.

Lemma map_snd_enumerate {A} (l : list A) : map snd (enumerate l) = l.
Proof. apply map_snd_combine_seq. Qed.

(** On the rows whose date converts, the mask built from the converted
    column selects what [filter] selects. *)
Lemma rmap_int64_dated (l : list (nat * row)) :
  Forall dated l ->
  rmap (fun v : nat * pyval => int64_of (snd v))
       (map (fun r => (fst r, numberdate (snd r))) l) = Ok (map date_int l).
Proof.
  induction 1 as [|r l [d Hd] _ IH]; simpl; [reflexivity|].
  rewrite Hd. simpl. rewrite IH. simpl. unfold date_int. rewrite Hd. reflexivity.
Qed.

Lemma mask_is_filter {A} (p : A -> bool) (l : list A) :
  map snd (filter fst (combine (map p l) l)) = filter p l.
Proof.
  induction l as [|x l IH]; simpl; [reflexivity|].
  destruct (p x); simpl; rewrite IH; reflexivity.
Qed.

Lemma mask_and_is_filter {A} (p q : A -> bool) (l : list A) :
  map snd (filter fst
    (combine (map (fun m : bool * bool => fst m && snd m) (combine (map p l) (map q l))) l))
  = filter (fun x => p x && q x) l.
Proof.
  induction l as [|x l IH]; simpl; [reflexivity|].
  destruct (p x && q x); simpl; rewrite IH; reflexivity.
Qed.

Lemma frame_of_records_columns (l : list row) :
  l <> [] -> columns (frame_of_records l) = meeting_columns.
Proof. destruct l; [congruence | reflexivity]. Qed.

(** ** One call of the fetcher *)

Section Fetcher.

Variable web : remote.
Variables site c : string.

Lemma get_boarddoc_meetings_run date log :
  get_boarddoc_meetings web site c date log =
  (fetched web site date c, log ++ [meetings_request site c]).
Proof.
  unfold fetched, get_boarddoc_meetings, bind, post_json, lift. simpl.
  destruct (meetings_feed web (meetings_url site) (meetings_data c)); try reflexivity.
  destruct (dropna_meeting_id _); reflexivity.
Qed.

Lemma fetched_reply date feed :
  meetings_feed web (meetings_url site) (meetings_data c) = Reply feed ->
  feed <> [] ->
  fetched web site date c =
  filter_by_date date (mk_frame meeting_columns (identified c feed)).
Proof.
  intros Hfeed Hne.
  unfold fetched, get_boarddoc_meetings, bind, post_json, lift. simpl.
  rewrite Hfeed. unfold dropna_meeting_id, has_column.
  rewrite frame_of_records_columns by (destruct feed; [congruence | discriminate]).
  reflexivity.
Qed.

Lemma fetched_ok_feed date out :
  fetched web site date c = Ok out ->
  exists feed,
    meetings_feed web (meetings_url site) (meetings_data c) = Reply feed /\ feed <> [].
Proof.
  unfold fetched, get_boarddoc_meetings, bind, post_json, lift. simpl.
  destruct (meetings_feed web (meetings_url site) (meetings_data c)) as [feed| |];
    try discriminate.
  intros H. exists feed. split; [reflexivity|].
  intros ->. discriminate.
Qed.

Lemma numberdate_ints_dated (l : list (nat * row)) :
  Forall dated l ->
  numberdate_ints (mk_frame meeting_columns l) = Ok (map date_int l).
Proof. intros H. unfold numberdate_ints, column. simpl. apply rmap_int64_dated, H. Qed.

(** C1.  The date filter of the meeting-list fetcher.  On a feed that is
    answered and not empty, with [kept] the records that carry an identifier:
    when both sides of the tuple are strings the fetcher returns exactly the
    records of [kept] whose numberdate, as an integer, lies between the two
    bounds, both included; when only the second side is a string, those at or
    below it; when only the first is, those at or above it; when neither side
    is a string, or no tuple is given, all of [kept].  The three filtering
    cases suppose that the dates of [kept] and the bounds convert to
    integers. *)
Theorem fetcher_date_filter :
  forall (log : list request) (feed : list json_object),
    meetings_feed web (meetings_url site) (meetings_data c) = Reply feed ->
    feed <> [] ->
    let kept := identified c feed in
    let returns date l :=
      fst (get_boarddoc_meetings web site c date log) = Ok (mk_frame meeting_columns l) in
    (forall from to lo hi,
        py_int from = Some lo -> py_int to = Some hi -> Forall dated kept ->
        returns (Some (PyStr from, PyStr to))
                (filter (fun r => (lo <=? date_int r)%Z && (date_int r <=? hi)%Z) kept))
    /\ (forall x to hi,
        type_is_str x = false -> py_int to = Some hi -> Forall dated kept ->
        returns (Some (x, PyStr to)) (filter (fun r => (date_int r <=? hi)%Z) kept))
    /\ (forall from y lo,
        type_is_str y = false -> py_int from = Some lo -> Forall dated kept ->
        returns (Some (PyStr from, y)) (filter (fun r => (lo <=? date_int r)%Z) kept))
    /\ (forall x y,
        type_is_str x = false -> type_is_str y = false -> returns (Some (x, y)) kept)
    /\ returns None kept.
Proof.
  intros log feed Hfeed Hne kept returns. subst returns. cbv beta.
  assert (Hrun : forall date,
             fst (get_boarddoc_meetings web site c date log) =
             filter_by_date date (mk_frame meeting_columns kept)).
  { intros date. rewrite get_boarddoc_meetings_run. simpl fst.
    apply fetched_reply; assumption. }
  repeat split; intros; rewrite Hrun; unfold filter_by_date.
  - simpl. rewrite numberdate_ints_dated by assumption. simpl.
    unfold int_of. rewrite H, H0. simpl.
    unfold select. simpl. f_equal. f_equal.
    rewrite !map_map.
    rewrite (mask_and_is_filter (fun r => (date_int r >=? lo)%Z)
                                (fun r => (date_int r <=? hi)%Z)).
    apply filter_ext. intros r. rewrite Z.geb_leb. reflexivity.
  - simpl. rewrite H. simpl.
    rewrite numberdate_ints_dated by assumption. simpl.
    unfold int_of. rewrite H0. unfold select. simpl. f_equal. f_equal.
    rewrite map_map. apply mask_is_filter.
  - simpl. rewrite H. simpl.
    rewrite numberdate_ints_dated by assumption. simpl.
    unfold int_of. rewrite H0. unfold select. simpl. f_equal. f_equal.
    rewrite map_map.
    rewrite (mask_is_filter (fun r => (date_int r >=? lo)%Z)).
    apply filter_ext. intros r. rewrite Z.geb_leb. reflexivity.
  - rewrite H, H0. reflexivity.
  - reflexivity.
Qed.

End Fetcher.

Lemma fetcher_date_filter_witness :
  fst (get_boarddoc_meetings Sample.web Sample.site "B"
         (Some (PyStr "20240101", PyStr "20240131")) [])
  = Ok (mk_frame meeting_columns
          [(0, mk_row (PyStr "1") (PyStr "B") (PyStr "20240101") (PyStr "Regular Meeting"))]).
Proof.
  assert (Hd : Forall dated (identified "B" Sample.feed_B)).
  { repeat constructor; eexists; reflexivity. }
  exact (proj1 (fetcher_date_filter Sample.web Sample.site "B" [] Sample.feed_B
                  eq_refl ltac:(discriminate))
               "20240101" "20240131" 20240101%Z 20240131%Z eq_refl eq_refl Hd).
Defined.

(** ** Absent identifiers *)

Lemma select_incl mask df r : In r (rows (select mask df)) -> In r (rows df).
Proof.
  unfold select. simpl. rewrite in_map_iff. intros ((b & r') & <- & Hin).
  apply filter_In in Hin as [Hin _]. eapply in_combine_r, Hin.
Qed.

Lemma filter_by_date_incl date df out r :
  filter_by_date date df = Ok out -> In r (rows out) -> In r (rows df).
Proof.
  unfold filter_by_date. destruct date as [[d0 d1]|]; [|intros H; inv H; auto].
  repeat match goal with
         | |- context [if ?b then _ else _] => destruct b
         end; intros H;
    repeat (apply rbind_ok in H as (? & _ & H));
    inv H; eauto using select_incl.
Qed.

Lemma fetched_through_dropna web site c date :
  fetched web site date c = rbind (fetched web site None c) (filter_by_date date).
Proof.
  unfold fetched, get_boarddoc_meetings, bind, post_json, lift. simpl.
  destruct (meetings_feed web (meetings_url site) (meetings_data c)); try reflexivity.
  destruct (dropna_meeting_id _); reflexivity.
Qed.

(** C7.  Records without an identifier.  Whatever the date filter, no
    record whose identifier is [None] is in what the fetcher returns; on a
    feed that is answered and not empty the fetcher without a filter returns
    exactly the records that carry an identifier, in the order and under the
    labels of the feed; and with a filter it returns the filter applied to
    that frame, so the records without identifier are gone before any date
    is read. *)
Theorem absent_identifier_dropped :
  forall (web : remote) (site c : string) (date : option (pyval * pyval))
         (log : list request),
    (forall out,
        fst (get_boarddoc_meetings web site c date log) = Ok out ->
        Forall (fun r => meeting_id (snd r) <> PyNone) (rows out))
    /\ (forall feed,
        meetings_feed web (meetings_url site) (meetings_data c) = Reply feed ->
        feed <> [] ->
        fst (get_boarddoc_meetings web site c None log)
        = Ok (mk_frame meeting_columns
                (filter (fun r => negb (isna (meeting_id (snd r))))
                        (enumerate (map (project c) feed)))))
    /\ fst (get_boarddoc_meetings web site c date log)
       = rbind (fst (get_boarddoc_meetings web site c None log)) (filter_by_date date).
Proof.
  intros web site c date log. rewrite !get_boarddoc_meetings_run. simpl fst.
  split; [|split].
  - intros out Hout.
    destruct (fetched_ok_feed _ _ _ _ _ Hout) as (feed & Hfeed & Hne).
    rewrite (fetched_reply _ _ _ _ feed Hfeed Hne) in Hout.
    apply Forall_forall. intros r Hr.
    apply (filter_by_date_incl _ _ _ _ Hout) in Hr. simpl in Hr.
    apply filter_In in Hr as [_ Hr].
    destruct (meeting_id (snd r)); [discriminate | discriminate ..].
  - intros feed Hfeed Hne. rewrite (fetched_reply _ _ _ _ feed Hfeed Hne). reflexivity.
  - apply fetched_through_dropna.
Qed.

Lemma absent_identifier_dropped_witness :
  fst (get_boarddoc_meetings Sample.web Sample.site "C"
         (Some (PyStr "20240101", PyNone)) [])
  = Ok (mk_frame meeting_columns
          [(1, mk_row (PyStr "3") (PyStr "C") (PyStr "20240301") (PyStr "Regular Meeting"))])
  /\ Forall (fun r => meeting_id (snd r) <> PyNone)
       [(1, mk_row (PyStr "3") (PyStr "C") (PyStr "20240301") (PyStr "Regular Meeting"))].
Proof.
  split; [reflexivity|].
  exact (proj1 (absent_identifier_dropped Sample.web Sample.site "C"
                  (Some (PyStr "20240101", PyNone)) [])
               _ eq_refl).
Defined.

(** ** Requests of the orchestrator *)

Lemma for_each_app {A B} (body : B -> A -> io B) l1 l2 acc log :
  for_each body (l1 ++ l2) acc log = bind (for_each body l1 acc) (for_each body l2) log.
Proof.
  revert acc log. induction l1 as [|x l1 IH]; intros acc log; simpl.
  - reflexivity.
  - unfold bind in *. destruct (body acc x log) as [[b|e] log']; [apply IH | reflexivity].
Qed.

Lemma filter_by_date_columns date df out :
  filter_by_date date df = Ok out -> columns out = columns df.
Proof.
  unfold filter_by_date. destruct date as [[d0 d1]|]; [|intros H; inv H; auto].
  repeat match goal with
         | |- context [if ?b then _ else _] => destruct b
         end; intros H;
    repeat (apply rbind_ok in H as (? & _ & H));
    inv H; reflexivity.
Qed.

Lemma fetched_columns web site date c df :
  fetched web site date c = Ok df -> columns df = meeting_columns.
Proof.
  intros H. destruct (fetched_ok_feed _ _ _ _ _ H) as (feed & Hfeed & Hne).
  rewrite (fetched_reply _ _ _ _ feed Hfeed Hne) in H.
  apply filter_by_date_columns in H. exact H.
Qed.

Section Orchestrator.

Variable web : remote.
Variable site : string.
Variable date : option (pyval * pyval).

Lemma process_boarddoc_meeting_run (r : row) log :
  process_boarddoc_meeting web site (committee_id r) (meeting_id r) log =
  (agenda_for web site r, log ++ agenda_requests web site r).
Proof.
  unfold agenda_for, agenda_requests, process_boarddoc_meeting, bind, lift, post_html.
  destruct (agenda_data (committee_id r) (meeting_id r)) as [d|e]; simpl.
  - destruct (agenda_page web (agenda_url site) d); reflexivity.
  - rewrite app_nil_r. reflexivity.
Qed.

(** A call of the extractor that returns has made one request. *)
Lemma agenda_for_ok_requests (r : row) a :
  agenda_for web site r = Ok a ->
  agenda_requests web site r = [agenda_request site r].
Proof.
  unfold agenda_for, agenda_requests, agenda_request, process_boarddoc_meeting,
    bind, lift, post_html.
  destruct (agenda_data (committee_id r) (meeting_id r)) as [d|e]; simpl.
  - destruct (agenda_page web (agenda_url site) d); reflexivity.
  - discriminate.
Qed.

(** The loop of [pd.concat] over the committees. *)
Lemma concat_loop_run cs frames acc log :
  columns acc = meeting_columns ->
  Forall2 (fun c df => fetched web site date c = Ok df) cs frames ->
  for_each (fun meetings c =>
              bind (get_boarddoc_meetings web site c date)
                   (fun m => ret (pd_concat meetings m)))
           cs acc log
  = (Ok (mk_frame meeting_columns (rows acc ++ flat_map rows frames)),
     log ++ map (meetings_request site) cs).
Proof.
  intros Hacc H. revert acc log Hacc.
  induction H as [|c df cs frames Hc _ IH]; intros acc log Hacc; simpl.
  - rewrite !app_nil_r. destruct acc as [cols rws]. simpl in *. subst. reflexivity.
  - unfold bind at 1 2. rewrite get_boarddoc_meetings_run, Hc. simpl.
    rewrite IH.
    + simpl. rewrite <- !app_assoc. reflexivity.
    + simpl. rewrite Hacc, (fetched_columns _ _ _ _ _ Hc). reflexivity.
Qed.

Lemma fetch_all_run cs frames log :
  cs <> [] ->
  Forall2 (fun c df => fetched web site date c = Ok df) cs frames ->
  fetch_all web site cs date log
  = (Ok (Some (mk_frame meeting_columns (flat_map rows frames))),
     log ++ map (meetings_request site) cs).
Proof.
  intros Hne H. destruct H as [|c df cs frames Hc Hrest]; [congruence|].
  destruct Hrest as [|c' df' cs frames Hc' Hrest].
  - simpl. unfold bind. rewrite get_boarddoc_meetings_run, Hc. simpl.
    rewrite app_nil_r. apply fetched_columns in Hc.
    destruct df as [cols rws]. simpl in *. subst. reflexivity.
  - unfold fetch_all, bind at 1.
    rewrite (concat_loop_run (c :: c' :: cs) (df :: df' :: frames)); auto.
Qed.

(** Reading the frame by label after [reset_index]. *)
Lemma at_label_combine_seq (sel : row -> pyval) (l : list row) k i r :
  nth_error l i = Some r ->
  at_label (k + i)
    (map (fun x => (fst x, sel (snd x))) (combine (seq k (List.length l)) l))
  = Ok (sel r).
Proof.
  revert k i. induction l as [|x l IH]; intros k i H; [destruct i; discriminate|].
  destruct i as [|i]; simpl in *.
  - inv H. rewrite Nat.add_0_r, Nat.eqb_refl. reflexivity.
  - destruct (Nat.eqb_spec (k + S i) k) as [E|_]; [lia|].
    replace (k + S i) with (S k + i) by lia. apply IH, H.
Qed.

Lemma at_label_enumerate (sel : row -> pyval) (l : list row) i r :
  nth_error l i = Some r ->
  at_label i (map (fun x => (fst x, sel (snd x))) (enumerate l)) = Ok (sel r).
Proof. intros H. apply (at_label_combine_seq sel l 0 i r H). Qed.

Lemma agenda_step_run (l : list row) agendas i r log :
  nth_error l i = Some r ->
  agenda_step web site (mk_frame meeting_columns (enumerate l)) agendas i log
  = (match agenda_for web site r with
     | Ok a => Ok (agendas ++ [a])
     | Raise e => Raise e
     end, log ++ agenda_requests web site r).
Proof.
  intros H. unfold agenda_step, bind at 1 2, lift, column. simpl.
  rewrite !(at_label_enumerate _ l i r H). simpl.
  unfold bind. rewrite process_boarddoc_meeting_run.
  destruct (agenda_for web site r); reflexivity.
Qed.

(** The loop over the labels runs the extractor on the rows in order. *)
Lemma agenda_loop_ok (l : list row) idxs rs ags acc log :
  Forall2 (fun i r => nth_error l i = Some r) idxs rs ->
  Forall2 (fun r a => agenda_for web site r = Ok a) rs ags ->
  for_each (agenda_step web site (mk_frame meeting_columns (enumerate l))) idxs acc log
  = (Ok (acc ++ ags), log ++ map (agenda_request site) rs).
Proof.
  intros Hi. revert ags acc log.
  induction Hi as [|i r idxs rs Hir _ IH]; intros ags acc log Ha; inv Ha; simpl.
  - rewrite !app_nil_r. reflexivity.
  - unfold bind. rewrite (agenda_step_run l acc i r log Hir).
    match goal with H : agenda_for _ _ r = Ok _ |- _ =>
      rewrite H, (agenda_for_ok_requests r _ H) end.
    rewrite (IH l' (acc ++ [y])) by assumption.
    rewrite <- !app_assoc. reflexivity.
Qed.

Lemma agenda_loop_raise (l : list row) i r idxs acc log e :
  nth_error l i = Some r ->
  agenda_for web site r = Raise e ->
  for_each (agenda_step web site (mk_frame meeting_columns (enumerate l)))
           (i :: idxs) acc log
  = (Raise e, log ++ agenda_requests web site r).
Proof.
  intros Hir He. simpl. unfold bind.
  rewrite (agenda_step_run l acc i r log Hir), He. reflexivity.
Qed.

Lemma nth_error_seq_from {A} (pre l post : list A) :
  Forall2 (fun i r => nth_error (pre ++ l ++ post) i = Some r)
          (seq (List.length pre) (List.length l)) l.
Proof.
  revert pre. induction l as [|x l IH]; intros pre; simpl; constructor.
  - rewrite nth_error_app2, Nat.sub_diag by lia. reflexivity.
  - specialize (IH (pre ++ [x])).
    rewrite <- app_assoc, length_app, Nat.add_1_r in IH. exact IH.
Qed.

Lemma nth_error_seq {A} (l : list A) :
  Forall2 (fun i r => nth_error l i = Some r) (seq 0 (List.length l)) l.
Proof.
  pose proof (nth_error_seq_from [] l []) as H. simpl in H.
  rewrite app_nil_r in H. exact H.
Qed.

(** Everything up to the loop over the meetings. *)
Lemma district_prefix cs frames log :
  cs <> [] ->
  Forall2 (fun c df => fetched web site date c = Ok df) cs frames ->
  process_boarddoc_district web site cs date log
  = let merged := map snd (keep_first [] (flat_map rows frames)) in
    bind (for_each (agenda_step web site (mk_frame meeting_columns (enumerate merged)))
                   (seq 0 (List.length merged)) [])
         (fun agendas => ret (mk_frame meeting_columns (enumerate merged), agendas))
         (log ++ map (meetings_request site) cs).
Proof.
  intros Hne H. unfold process_boarddoc_district, bind at 1.
  rewrite (fetch_all_run cs frames log Hne H).
  unfold bind at 1, lift, local, bind at 1, drop_duplicates_meeting_id, reset_index.
  simpl. rewrite length_enumerate. reflexivity.
Qed.

End Orchestrator.

(** ** Dropping duplicate identifiers *)

Lemma py_eqb_refl v : py_eqb v v = true.
Proof.
  destruct v; simpl; auto using String.eqb_refl.
  destruct (list_eq_dec string_dec l l); congruence.
Qed.

Lemma py_eqb_sym v w : py_eqb v w = py_eqb w v.
Proof.
  destruct v, w; simpl; auto using String.eqb_sym.
  destruct (list_eq_dec string_dec l l0), (list_eq_dec string_dec l0 l); congruence.
Qed.

Lemma py_eqb_trans u v w : py_eqb u v = true -> py_eqb v w = true -> py_eqb u w = true.
Proof.
  destruct u, v, w; simpl; try discriminate; auto;
    rewrite ?String.eqb_eq; try congruence.
  destruct (list_eq_dec string_dec l l0), (list_eq_dec string_dec l0 l1),
    (list_eq_dec string_dec l l1); congruence.
Qed.

Lemma subsequence_map {A B} (f : A -> B) sub l :
  subsequence sub l -> subsequence (map f sub) (map f l).
Proof. induction 1; simpl; constructor; assumption. Qed.

Lemma keep_first_subsequence seen l : subsequence (keep_first seen l) l.
Proof.
  revert seen. induction l as [|r l IH]; intros seen; simpl; [constructor|].
  destruct (existsb _ seen); constructor; apply IH.
Qed.

Lemma keep_first_unseen seen l :
  Forall (fun r => existsb (py_eqb (meeting_id (snd r))) seen = false) (keep_first seen l).
Proof.
  revert seen. induction l as [|r l IH]; intros seen; simpl; [constructor|].
  destruct (existsb _ seen) eqn:E; [apply IH|].
  constructor; [exact E|].
  eapply Forall_impl; [|apply (IH (meeting_id (snd r) :: seen))].
  intros r' H. simpl in H. apply orb_false_elim in H. tauto.
Qed.

Lemma keep_first_distinct seen l :
  ForallOrdPairs
    (fun r1 r2 => py_eqb (meeting_id (snd r1)) (meeting_id (snd r2)) = false)
    (keep_first seen l).
Proof.
  revert seen. induction l as [|r l IH]; intros seen; simpl; [constructor|].
  destruct (existsb _ seen) eqn:E; [apply IH|].
  constructor; [|apply IH].
  eapply Forall_impl; [|apply (keep_first_unseen (meeting_id (snd r) :: seen))].
  intros r' H. simpl in H. apply orb_false_elim in H as [H _].
  rewrite py_eqb_sym. exact H.
Qed.

(** A row is kept when no row before it and no identifier seen so far
    equals its identifier. *)
Lemma keep_first_keeps seen pre r post :
  existsb (py_eqb (meeting_id (snd r))) seen = false ->
  Forall (fun r' => py_eqb (meeting_id (snd r')) (meeting_id (snd r)) = false) pre ->
  In r (keep_first seen (pre ++ r :: post)).
Proof.
  revert seen. induction pre as [|x pre IH]; intros seen Hseen Hpre; simpl.
  - rewrite Hseen. left. reflexivity.
  - inv Hpre.
    destruct (existsb (py_eqb (meeting_id (snd x))) seen); [apply IH; assumption|].
    right. apply IH; [|assumption]. simpl. rewrite Hseen, py_eqb_sym, H1. reflexivity.
Qed.

(** Every identifier that comes in is represented in what is kept. *)
Lemma keep_first_covers seen l r :
  In r l ->
  existsb (py_eqb (meeting_id (snd r))) seen = true \/
  exists r', In r' (keep_first seen l) /\
             py_eqb (meeting_id (snd r')) (meeting_id (snd r)) = true.
Proof.
  revert seen. induction l as [|x l IH]; intros seen Hin; [destruct Hin|].
  simpl. destruct Hin as [->|Hin].
  - destruct (existsb _ seen) eqn:E; [left; reflexivity|].
    right. exists r. split; [left; reflexivity | apply py_eqb_refl].
  - destruct (existsb (py_eqb (meeting_id (snd x))) seen) eqn:E.
    + apply IH, Hin.
    + destruct (IH (meeting_id (snd x) :: seen) Hin) as [H|(r' & H1 & H2)].
      * simpl in H. apply orb_true_iff in H as [H|H]; [|left; exact H].
        right. exists x. split; [left; reflexivity|]. rewrite py_eqb_sym. exact H.
      * right. exists r'. split; [right; exact H1 | exact H2].
Qed.

Lemma ForallOrdPairs_map {A B} (f : A -> B) (R : B -> B -> Prop) l :
  ForallOrdPairs (fun x y => R (f x) (f y)) l -> ForallOrdPairs R (map f l).
Proof.
  induction 1 as [|x l Hx _ IH]; simpl; constructor; [|exact IH].
  apply Forall_map. exact Hx.
Qed.

(** ** The district orchestrator *)

(** C2.  Composition of the orchestrator.  For a list of committees that
    is not empty, when every call of the fetcher returns a frame and every
    call of the extractor returns an agenda: the orchestrator makes one
    meeting-list request per committee in the order of the list, then one
    agenda request per kept meeting in the order of the kept meetings, and
    returns the kept meetings under the labels 0, 1, 2, ... with exactly their
    agendas in the same order.  The kept meetings are the rows of the frames
    concatenated in committee order with the later rows of a repeated
    identifier removed: they are in the order of the concatenation, no two
    have the same identifier, the first row of an identifier is kept, and
    every identifier that was fetched is kept. *)
Theorem district_composition :
  forall (web : remote) (site : string) (date : option (pyval * pyval))
         (cs : list string) (frames : list DataFrame) (agendas : list agenda)
         (log : list request),
    cs <> [] ->
    Forall2 (fun c df => fetched web site date c = Ok df) cs frames ->
    let fetched_rows := flat_map rows frames in
    let merged := map snd (keep_first [] fetched_rows) in
    Forall2 (fun r a => agenda_for web site r = Ok a) merged agendas ->
    process_boarddoc_district web site cs date log
    = (Ok (mk_frame meeting_columns (enumerate merged), agendas),
       log ++ map (meetings_request site) cs ++ map (agenda_request site) merged)
    /\ map fst (enumerate merged) = seq 0 (List.length merged)
    /\ List.length agendas = List.length merged
    /\ subsequence merged (map snd fetched_rows)
    /\ ForallOrdPairs (fun r1 r2 => py_eqb (meeting_id r1) (meeting_id r2) = false) merged
    /\ (forall pre r post,
           fetched_rows = pre ++ r :: post ->
           Forall (fun r' => py_eqb (meeting_id (snd r')) (meeting_id (snd r)) = false) pre ->
           In (snd r) merged)
    /\ (forall r, In r fetched_rows ->
           exists r', In r' merged /\ py_eqb (meeting_id r') (meeting_id (snd r)) = true).
Proof.
  intros web site date cs frames agendas log Hne Hf fetched_rows merged Ha.
  repeat split.
  - rewrite (district_prefix web site date cs frames log Hne Hf). fold fetched_rows merged.
    cbv zeta. unfold bind.
    rewrite (agenda_loop_ok web site merged _ merged agendas [] _ (nth_error_seq merged) Ha).
    simpl. rewrite <- app_assoc. reflexivity.
  - unfold enumerate. apply combine_map_fst_seq.
  - symmetry. eapply Forall2_length, Ha.
  - apply subsequence_map, keep_first_subsequence.
  - apply ForallOrdPairs_map, keep_first_distinct.
  - intros pre r post Hsplit Hpre. apply in_map. rewrite Hsplit.
    apply keep_first_keeps; [reflexivity | exact Hpre].
  - intros r Hr. destruct (keep_first_covers [] _ r Hr) as [H|(r' & H1 & H2)].
    + discriminate.
    + exists (snd r'). split; [apply in_map, H1 | exact H2].
Qed.

Lemma district_composition_witness :
  process_boarddoc_district Sample.web Sample.site ["A"; "B"]
    (Some (PyStr "20240101", PyStr "20240101")) []
  = (Ok (mk_frame meeting_columns [sample_row 0 "1" "A" "20240101"], [sample_agenda "1"]),
     [meetings_request Sample.site "A"; meetings_request Sample.site "B";
      (agenda_url Sample.site, "id=1&current_committee_id=A")]).
Proof.
  assert (Hf : Forall2 (fun c df => fetched Sample.web Sample.site
                          (Some (PyStr "20240101", PyStr "20240101")) c = Ok df)
                 ["A"; "B"]
                 [mk_frame meeting_columns [sample_row 0 "1" "A" "20240101"];
                  mk_frame meeting_columns [sample_row 0 "1" "B" "20240101"]]).
  { repeat constructor. }
  assert (Ha : Forall2 (fun r a => agenda_for Sample.web Sample.site r = Ok a)
                 [snd (sample_row 0 "1" "A" "20240101")] [sample_agenda "1"]).
  { repeat constructor. }
  exact (proj1 (district_composition Sample.web Sample.site _ ["A"; "B"] _ _ []
                  ltac:(discriminate) Hf Ha)).
Defined.

(** C6.  Fail-fast.  When the fetcher has returned for every committee and
    the extractor raises [e] for a kept meeting after having returned for the
    kept meetings before it, the orchestrator raises [e]: it returns no frame
    and no agenda, and the requests it has made are those for the committees,
    one for each meeting before the failing one, and what the failing call
    itself made (at most its own request); no request is made for a meeting
    after the failing one. *)
Theorem district_fail_fast :
  forall (web : remote) (site : string) (date : option (pyval * pyval))
         (cs : list string) (frames : list DataFrame)
         (pre : list row) (r : row) (post : list row) (agendas : list agenda)
         (e : exn) (log : list request),
    cs <> [] ->
    Forall2 (fun c df => fetched web site date c = Ok df) cs frames ->
    map snd (keep_first [] (flat_map rows frames)) = pre ++ r :: post ->
    Forall2 (fun r' a => agenda_for web site r' = Ok a) pre agendas ->
    agenda_for web site r = Raise e ->
    process_boarddoc_district web site cs date log
    = (Raise e,
       log ++ map (meetings_request site) cs ++ map (agenda_request site) pre
           ++ agenda_requests web site r)
    /\ (agenda_requests web site r = [] \/
        agenda_requests web site r = [agenda_request site r]).
Proof.
  intros web site date cs frames pre r post agendas e log Hne Hf Hsplit Hpre He.
  split.
  - rewrite (district_prefix web site date cs frames log Hne Hf). cbv zeta.
    rewrite Hsplit, length_app. simpl List.length. rewrite seq_app. simpl seq.
    unfold bind at 1. rewrite for_each_app. unfold bind at 1.
    rewrite (agenda_loop_ok web site (pre ++ r :: post) _ pre agendas [] _
               (nth_error_seq_from [] pre (r :: post)) Hpre).
    rewrite (agenda_loop_raise web site (pre ++ r :: post) (List.length pre) r _ _ _ e).
    + rewrite <- !app_assoc. reflexivity.
    + rewrite nth_error_app2, Nat.sub_diag by lia. reflexivity.
    + exact He.
  - unfold agenda_requests, agenda_request, process_boarddoc_meeting, bind, lift, post_html.
    destruct (agenda_data (committee_id r) (meeting_id r)) as [d|e']; simpl; auto.
    destruct (agenda_page web (agenda_url site) d); auto.
Qed.

Lemma district_fail_fast_witness :
  process_boarddoc_district Sample.web Sample.site ["B"; "C"] None []
  = (Raise AttributeError,
     [meetings_request Sample.site "B"; meetings_request Sample.site "C";
      (agenda_url Sample.site, "id=1&current_committee_id=B");
      (agenda_url Sample.site, "id=2&current_committee_id=B")]).
Proof.
  assert (Hf : Forall2 (fun c df => fetched Sample.web Sample.site None c = Ok df)
                 ["B"; "C"]
                 [mk_frame meeting_columns
                    [sample_row 0 "1" "B" "20240101"; sample_row 1 "2" "B" "20240201"];
                  mk_frame meeting_columns [sample_row 1 "3" "C" "20240301"]]).
  { repeat constructor. }
  assert (Ha : Forall2 (fun r a => agenda_for Sample.web Sample.site r = Ok a)
                 [snd (sample_row 0 "1" "B" "20240101")] [sample_agenda "1"]).
  { repeat constructor. }
  exact (proj1 (district_fail_fast Sample.web Sample.site None ["B"; "C"] _
                  [snd (sample_row 0 "1" "B" "20240101")]
                  (snd (sample_row 1 "2" "B" "20240201"))
                  [snd (sample_row 1 "3" "C" "20240301")] _ AttributeError []
                  ltac:(discriminate) Hf eq_refl Ha eq_refl)).
Defined.

(** ** The unbound variable *)


Lemma bound_rbind {A B} (r : result A) (k : A -> result B) :
  bound r -> (forall a, bound (k a)) -> bound (rbind r k).
Proof.
  intros Hr Hk. destruct r; simpl; [apply Hk|].
  intros E. apply Hr. inv E. reflexivity.
Qed.

Lemma bound_rfold {A B} (body : B -> A -> result B) l acc :
  (forall a x, bound (body a x)) -> bound (rfold body l acc).
Proof.
  intros H. revert acc. induction l as [|x l IH]; intros acc; simpl.
  - discriminate.
  - apply bound_rbind; auto.
Qed.

Lemma bound_rmap {A B} (f : A -> result B) l :
  (forall x, bound (f x)) -> bound (rmap f l).
Proof.
  intros H. induction l as [|x l IH]; simpl.
  - discriminate.
  - apply bound_rbind; [apply H|]. intros y. apply bound_rbind; [apply IH|].
    discriminate.
Qed.

Lemma bound_at_label i col : bound (at_label i col).
Proof.
  induction col as [|[j v] col IH]; simpl; [discriminate|].
  destruct (Nat.eqb i j); [discriminate | exact IH].
Qed.

Ltac bounded :=
  repeat first
    [ progress intros
    | apply bound_rbind
    | apply bound_rfold
    | apply bound_rmap
    | apply bound_at_label
    | match goal with
      | |- bound (Ok _) => discriminate
      | |- bound (Raise _) => discriminate
      | |- bound (if ?b then _ else _) => destruct b
      | |- bound (match ?x with _ => _ end) => destruct x
      end ].

Lemma bound_filter_by_date date df : bound (filter_by_date date df).
Proof.
  unfold filter_by_date, numberdate_ints, column, int64_of, int_of. bounded.
Qed.

Lemma bound_agenda_of_soup meeting_id soup : bound (agenda_of_soup meeting_id soup).
Proof.
  unfold agenda_of_soup, description_of, non_none.
  bounded;
    unfold item_step, public_file_step, legacy_step, non_none, get_attr, subject_of, py_in;
    bounded.
Qed.

Lemma io_bound_bind {A B} (m : io A) (k : A -> io B) :
  io_bound m -> (forall a, io_bound (k a)) -> io_bound (bind m k).
Proof.
  intros Hm Hk log. unfold bind. specialize (Hm log).
  destruct (m log) as [[a|e] log']; simpl in *; [apply Hk|].
  intros E. apply Hm. inv E. reflexivity.
Qed.

Lemma io_bound_for_each {A B} (body : B -> A -> io B) l acc :
  (forall a x, io_bound (body a x)) -> io_bound (for_each body l acc).
Proof.
  intros H. revert acc. induction l as [|x l IH]; intros acc; simpl.
  - intros log. discriminate.
  - apply io_bound_bind; auto.
Qed.

Lemma io_bound_get_boarddoc_meetings web site c date :
  io_bound (get_boarddoc_meetings web site c date).
Proof.
  intros log. rewrite get_boarddoc_meetings_run. simpl.
  unfold fetched, get_boarddoc_meetings, bind, post_json, lift, dropna_meeting_id. simpl.
  destruct (meetings_feed _ _ _); simpl; try discriminate.
  destruct (has_column _ _); simpl; [apply bound_filter_by_date | discriminate].
Qed.

Lemma io_bound_process_boarddoc_meeting web site c m :
  io_bound (process_boarddoc_meeting web site c m).
Proof.
  intros log. unfold process_boarddoc_meeting, bind, lift, post_html, agenda_data, str_add.
  destruct m; simpl; try discriminate; destruct c; simpl; try discriminate;
    destruct (agenda_page _ _ _); simpl; try discriminate; apply bound_agenda_of_soup.
Qed.

Lemma io_bound_agenda_step web site df agendas i :
  io_bound (agenda_step web site df agendas i).
Proof.
  unfold agenda_step.
  apply io_bound_bind; [intros log; simpl; unfold column; bounded | intros c].
  apply io_bound_bind; [intros log; simpl; unfold column; bounded | intros m].
  apply io_bound_bind; [apply io_bound_process_boarddoc_meeting | intros a log].
  discriminate.
Qed.

(** For a list that is not empty, one of the two branches assigns. *)
Lemma fetch_all_assigns web site cs date log :
  cs <> [] ->
  match fst (fetch_all web site cs date log) with
  | Ok (Some _) => True
  | Ok None => False
  | Raise e => e <> UnboundLocalError
  end.
Proof.
  intros Hne. destruct cs as [|c [|c' cs]]; [congruence| |].
  - simpl. unfold bind. pose proof (io_bound_get_boarddoc_meetings web site c date log) as H.
    destruct (get_boarddoc_meetings web site c date log) as [[df|e] log']; simpl in *;
      [exact I | congruence].
  - unfold fetch_all, bind at 1.
    match goal with |- context [for_each ?b ?l ?a log] =>
      pose proof (io_bound_for_each b l a) as H; specialize (H ltac:(
        intros a0 x0; apply io_bound_bind;
        [apply io_bound_get_boarddoc_meetings | intros ? ?; discriminate]) log);
      destruct (for_each b l a log) as [[df|e] log']
    end; simpl in *; [exact I | congruence].
Qed.

(** C9.  The empty committee list.  With no committee the orchestrator
    raises the error of reading the variable [meetings] before it is
    assigned, without making any request, instead of returning an empty frame
    and an empty agenda list; with at least one committee it never raises
    that error. *)
Theorem district_needs_a_committee :
  forall (web : remote) (site : string) (date : option (pyval * pyval))
         (log : list request),
    process_boarddoc_district web site [] date log = (Raise UnboundLocalError, log)
    /\ (forall cs, cs <> [] ->
          fst (process_boarddoc_district web site cs date log) <> Raise UnboundLocalError).
Proof.
  intros web site date log. split; [reflexivity|].
  intros cs Hne. unfold process_boarddoc_district, bind at 1.
  pose proof (fetch_all_assigns web site cs date log Hne) as H.
  destruct (fetch_all web site cs date log) as [[[df|]|e] log']; simpl in H;
    [| contradiction | simpl; congruence].
  unfold bind at 1, lift, local, bind at 1, drop_duplicates_meeting_id.
  destruct (has_column "meeting_id" df); [|simpl; discriminate].
  apply (io_bound_bind _ (fun agendas => ret (_, agendas))).
  - apply io_bound_for_each. intros. apply io_bound_agenda_step.
  - intros a l. discriminate.
Qed.

Lemma district_needs_a_committee_witness :
  fst (process_boarddoc_district Sample.web Sample.site ["empty"] None [])
  <> Raise UnboundLocalError.
Proof.
  exact (proj2 (district_needs_a_committee Sample.web Sample.site None [])
               ["empty"] ltac:(discriminate)).
Defined.

(** ** The agenda extractor *)

(** What a returning extractor has computed on the way. *)
Lemma agenda_of_soup_ok meeting_id soup a :
  agenda_of_soup meeting_id soup = Ok a ->
  exists nm dt public,
    find_class "div" "print-meeting-name" soup = Some nm /\
    find_class "div" "print-meeting-date" soup = Some dt /\
    description_of soup = Ok (agenda_description a) /\
    rfold item_step (find_all "div" soup) [] = Ok (agenda_items a) /\
    rfold public_file_step (find_all_class "div" "public-file" soup) [] = Ok public /\
    rfold legacy_step (find_all_href "legacy-content" soup) public = Ok (agenda_files a).
Proof.
  unfold agenda_of_soup. intros H.
  apply rbind_ok in H as (nm & Hnm & H). apply rbind_ok in H as (dt & Hdt & H).
  apply rbind_ok in H as (d & Hd & H). apply rbind_ok in H as (items & Hitems & H).
  apply rbind_ok in H as (pub & Hpub & H). apply rbind_ok in H as (files & Hfiles & H).
  inv H. simpl.
  destruct (find_class "div" "print-meeting-name" soup); [|discriminate].
  destruct (find_class "div" "print-meeting-date" soup); [|discriminate].
  eauto 10.
Qed.

(** *** The description *)

(** [tag.string] is [None] or a [NavigableString], never a plain [str]. *)
Lemma string_of_not_str : forall n : node, type_is_str (string_of n) = false.
Proof.
  fix IH 1. intros [s|nm ats cs]; [reflexivity|].
  destruct cs as [|c [|c' cs]]; simpl; [reflexivity | apply IH | reflexivity].
Qed.

(** The test [type(...) is str] of line 96 therefore never holds: whenever
    the description element is there, the description is the empty string,
    also when the element holds a single string. *)
Lemma description_never_kept soup v : description_of soup = Ok v -> v = PyStr "".
Proof.
  unfold description_of.
  destruct (find_class "div" "print-meeting-description" soup) as [d|]; simpl;
    [|discriminate].
  rewrite string_of_not_str. intros H. inv H. reflexivity.
Qed.

Example description_text_is_lost :
  option_map string_of (find_class "div" "print-meeting-description" Sample.page)
  = Some (PyNavStr "Held in the board room")
  /\ option_map agenda_description
       (match agenda_of_soup (PyStr "1") Sample.page with Ok a => Some a | Raise _ => None end)
     = Some (PyStr "").
Proof. split; reflexivity. Qed.

(** C5, as the extractor has it.  When the description element is missing,
    reading its string raises [AttributeError] and the extractor returns no
    agenda.  When the element is there and has no single string (it is empty,
    has several children, or nested markup without one string), the
    description is the empty string and nothing is raised at that step.  The
    description of a returned agenda is the one computed by that step. *)
Theorem description_fallback :
  forall (meeting_id : pyval) (soup : list node),
    (find_class "div" "print-meeting-description" soup = None ->
       description_of soup = Raise AttributeError /\
       exists e, agenda_of_soup meeting_id soup = Raise e)
    /\ (forall d,
          find_class "div" "print-meeting-description" soup = Some d ->
          string_of d = PyNone ->
          description_of soup = Ok (PyStr ""))
    /\ (forall a,
          agenda_of_soup meeting_id soup = Ok a ->
          description_of soup = Ok (agenda_description a)).
Proof.
  intros meeting_id soup. split; [|split].
  - intros Hnone.
    assert (Hd : description_of soup = Raise AttributeError).
    { unfold description_of. rewrite Hnone. reflexivity. }
    split; [exact Hd|].
    destruct (agenda_of_soup meeting_id soup) as [a|e] eqn:E; [|eauto].
    apply agenda_of_soup_ok in E as (_ & _ & _ & _ & _ & Hdesc & _). congruence.
  - intros d Hd Hs. unfold description_of. rewrite Hd. simpl. rewrite Hs. reflexivity.
  - intros a H. apply agenda_of_soup_ok in H as (_ & _ & _ & _ & _ & Hdesc & _).
    exact Hdesc.
Qed.

Lemma description_fallback_witness :
  description_of Sample.page_levelled_item = Ok (PyStr "")
  /\ description_of Sample.page_no_description = Raise AttributeError.
Proof.
  split.
  - exact (proj1 (proj2 (description_fallback PyNone Sample.page_levelled_item))
                 (Tag "div" [("class", PyList ["print-meeting-description"])] [])
                 eq_refl eq_refl).
  - exact (proj1 (proj1 (description_fallback PyNone Sample.page_no_description) eq_refl)).
Defined.

(** A page without the description element: no agenda with an empty
    description comes back, the extractor raises. *)
Lemma description_missing_element_raises :
  find_class "div" "print-meeting-description" Sample.page_no_description = None
  /\ agenda_of_soup (PyStr "1") Sample.page_no_description = Raise AttributeError
  /\ ~ (exists a, agenda_of_soup (PyStr "1") Sample.page_no_description = Ok a
                  /\ agenda_description a = PyStr "").
Proof.
  split; [reflexivity|]. split; [reflexivity|].
  intros (a & H & _). discriminate.
Qed.

(** ** Texts *)

Lemma append_empty_r (s : string) : (s ++ "")%string = s.
Proof. induction s as [|c s IH]; simpl; [reflexivity | rewrite IH; reflexivity]. Qed.

Lemma append_assoc3 (a b c : string) : ((a ++ b) ++ c)%string = (a ++ b ++ c)%string.
Proof. induction a as [|x a IH]; simpl; [reflexivity | rewrite IH; reflexivity]. Qed.

Lemma within_refl x : within x x.
Proof. exists "", "". simpl. rewrite append_empty_r. reflexivity. Qed.

Lemma within_trans x y z : within x y -> within y z -> within x z.
Proof.
  intros (a & b & ->) (a' & b' & ->). exists (a' ++ a)%string, (b ++ b')%string.
  rewrite !append_assoc3. reflexivity.
Qed.

Lemma within_append_l x a b : within x a -> within x (a ++ b)%string.
Proof.
  intros H. apply (within_trans x a); [exact H|]. exists "", b. reflexivity.
Qed.

Lemma within_append_r x a b : within x b -> within x (a ++ b)%string.
Proof.
  intros H. apply (within_trans x b); [exact H|]. exists a, "".
  rewrite append_empty_r. reflexivity.
Qed.

Lemma concat_empty_cons (x : string) l :
  String.concat "" (x :: l) = (x ++ String.concat "" l)%string.
Proof. destruct l; simpl; [rewrite append_empty_r|]; reflexivity. Qed.

Lemma concat_empty_app l1 l2 :
  String.concat "" (l1 ++ l2) = (String.concat "" l1 ++ String.concat "" l2)%string.
Proof.
  induction l1 as [|x l1 IH]; [reflexivity|].
  rewrite <- app_comm_cons, !concat_empty_cons, IH, append_assoc3. reflexivity.
Qed.

Lemma within_concat x l : In x l -> within x (String.concat "" l).
Proof.
  induction l as [|y l IH]; intros H; [destruct H|].
  rewrite concat_empty_cons. destruct H as [->|H].
  - apply within_append_l, within_refl.
  - apply within_append_r, IH, H.
Qed.

Lemma prefix_append x b : prefix x (x ++ b) = true.
Proof.
  induction x as [|c x IH]; simpl; [destruct b; reflexivity|].
  destruct (ascii_dec c c); [exact IH | congruence].
Qed.

Lemma contains_unfold x t :
  contains x t = prefix x t || match t with
                               | EmptyString => false
                               | String _ r => contains x r
                               end.
Proof. destruct t; reflexivity. Qed.

(** [x in t] holds when [x] occurs in [t]. *)
Lemma within_contains x t : within x t -> contains x t = true.
Proof.
  intros (a & b & ->). induction a as [|c a IH].
  - simpl append. rewrite contains_unfold, prefix_append. reflexivity.
  - simpl. simpl in IH. rewrite IH. apply orb_true_r.
Qed.

Lemma Forall2_In_l {A B} (R : A -> B -> Prop) l1 l2 x :
  Forall2 R l1 l2 -> In x l1 -> exists y, In y l2 /\ R x y.
Proof.
  induction 1 as [|a b l1 l2 Hab _ IH]; intros Hin; [destruct Hin|].
  destruct Hin as [->|Hin]; [exists b; split; [left; reflexivity | exact Hab]|].
  destruct (IH Hin) as (y & Hy & Hxy). exists y. split; [right; exact Hy | exact Hxy].
Qed.

(** *** Files behind a hyperlink to legacy content *)

(** [findChild()] returns the first tag below in document order, and that
    is the first child that is a tag. *)
Lemma findChild_first_child (t : located) : findChild t = first_child_element (snd t).
Proof.
  destruct t as [anc n]. unfold findChild, first_child_element, descendants. simpl.
  destruct n as [s|nm ats cs]; [reflexivity|]. simpl.
  generalize (Tag nm ats cs :: anc). intros anc'.
  induction cs as [|c cs IH]; [reflexivity|].
  destruct c as [s|nm' ats' cs']; simpl; [exact IH | reflexivity].
Qed.

Lemma legacy_step_ok files link out :
  legacy_step files link = Ok out ->
  exists f, out = files ++ [f] /\ legacy_entry link f.
Proof.
  unfold legacy_step, legacy_entry. intros H.
  apply rbind_ok in H as (parent & Hp & H). apply rbind_ok in H as (item & Hi & H).
  apply rbind_ok in H as (child & Hc & H). apply rbind_ok in H as (filename & Hf & H).
  apply rbind_ok in H as (href & Hh & H). inv H.
  exists (item, filename, href). split; [reflexivity|].
  exists parent, child. simpl.
  destruct (find_parent "div" "agendaorder" link); inv Hp.
  unfold subject_of in Hi. destruct (search_subject (text_of parent)); inv Hi.
  rewrite findChild_first_child in Hc.
  destruct (first_child_element (snd link)); inv Hc.
  unfold get_attr in Hh. destruct (lookup "href" (attrs_of (snd link))); inv Hh.
  repeat split.
  unfold has_attr, get_attr in Hf.
  destruct (lookup "alt" (attrs_of child)); inv Hf; reflexivity.
Qed.

Lemma legacy_loop_ok links files out :
  rfold legacy_step links files = Ok out ->
  exists legacy, out = files ++ legacy /\ Forall2 legacy_entry links legacy.
Proof.
  revert files. induction links as [|link links IH]; intros files H; simpl in H.
  - inv H. exists []. rewrite app_nil_r. split; [reflexivity | constructor].
  - apply rbind_ok in H as (mid & Hstep & H).
    apply legacy_step_ok in Hstep as (f & -> & Hf).
    apply IH in H as (legacy & -> & Hl).
    exists (f :: legacy). rewrite <- app_assoc. split; [reflexivity|].
    constructor; assumption.
Qed.

(** C8.  Naming of legacy files.  When the extractor returns an agenda,
    the last of its files are exactly one entry per hyperlink ([a] tag of the
    page) whose [href] contains ["legacy-content"], in document order; the
    label of the entry is the Subject line of the text of the nearest
    enclosing [div] of class ["agendaorder"], its display name is the [alt]
    attribute of the first child element of the hyperlink when that child has
    one and the empty string when it has none, and its target is the [href] of
    the hyperlink.  In particular every [a] tag of the page whose [href] is a
    string in which ["legacy-content"] occurs has such an entry. *)
Theorem legacy_file_naming :
  forall (meeting_id : pyval) (soup : list node) (a : agenda),
    agenda_of_soup meeting_id soup = Ok a ->
    let links := filter legacy_hyperlink (soup_tags soup) in
    List.length links <= List.length (agenda_files a)
    /\ Forall2 legacy_entry links
         (skipn (List.length (agenda_files a) - List.length links) (agenda_files a))
    /\ (forall link h,
          In link (soup_tags soup) ->
          tag_name (snd link) = "a" ->
          lookup "href" (attrs_of (snd link)) = Some (PyStr h) ->
          within "legacy-content" h ->
          exists f, In f (agenda_files a) /\ legacy_entry link f /\ snd f = PyStr h).
Proof.
  intros meeting_id soup a H links.
  apply agenda_of_soup_ok in H as (_ & _ & public & _ & _ & _ & _ & _ & Hfiles).
  change (find_all_href "legacy-content" soup) with links in Hfiles.
  apply legacy_loop_ok in Hfiles as (legacy & -> & Hl).
  pose proof (Forall2_length Hl) as Hlen.
  split; [rewrite length_app; lia|]. split.
  - rewrite length_app, Hlen, Nat.add_sub, skipn_app, skipn_all, Nat.sub_diag. exact Hl.
  - intros link h Hin Ha Hh Hw.
    assert (Hlink : In link links).
    { apply filter_In. split; [exact Hin|]. unfold legacy_hyperlink.
      rewrite Ha, Hh. simpl. apply within_contains, Hw. }
    destruct (Forall2_In_l _ _ _ link Hl Hlink) as (f & Hf & He).
    exists f. split; [apply in_or_app; right; exact Hf|]. split; [exact He|].
    destruct He as (_ & _ & _ & _ & _ & _ & Hhref). congruence.
Qed.

Lemma legacy_file_naming_witness :
  Sample.page = [sample_html]
  /\ Forall2 legacy_entry sample_legacy_links
       [("Budget", PyStr "old.doc", PyStr "/legacy-content/a");
        ("Budget", PyStr "", PyStr "/legacy-content/b")]
  /\ exists f,
       In f (agenda_files (sample_agenda "1")) /\
       legacy_entry ([sample_item; sample_body; sample_html], sample_link_b) f /\
       snd f = PyStr "/legacy-content/b".
Proof.
  split; [reflexivity|].
  pose proof (legacy_file_naming (PyStr "1") Sample.page (sample_agenda "1") eq_refl)
    as (_ & Hentries & Heach).
  split; [exact Hentries|].
  apply (Heach ([sample_item; sample_body; sample_html], sample_link_b) "/legacy-content/b").
  - do 13 right. left. reflexivity.
  - reflexivity.
  - reflexivity.
  - exists "/", "/b". reflexivity.
Defined.

(** In the sample the two legacy entries are the last two: the first link
    has an image with an [alt], the second a string and then an image
    without one. *)
Example legacy_file_names :
  map (fun l => first_child_element (snd l)) (find_all_href "legacy-content" Sample.page)
  = [Some (Sample.image [("alt", PyStr "old.doc")]); Some (Sample.image [])]
  /\ agenda_of_soup (PyStr "1") Sample.page = Ok (sample_agenda "1").
Proof. split; reflexivity. Qed.

(** C10.  A hyperlink to legacy content without any child element.  If
    the page has such a hyperlink, the extractor returns no agenda; at that
    hyperlink, once the label has been found, the step raises
    [AttributeError] (the attribute test on the absent child), and no entry
    with an empty display name is recorded. *)
Theorem bare_legacy_link_raises :
  forall (meeting_id : pyval) (soup : list node) (link : located),
    In link (find_all_href "legacy-content" soup) ->
    first_child_element (snd link) = None ->
    (exists e, agenda_of_soup meeting_id soup = Raise e)
    /\ (forall files, exists e, legacy_step files link = Raise e)
    /\ (forall files parent item,
          find_parent "div" "agendaorder" link = Some parent ->
          search_subject (text_of parent) = Some item ->
          legacy_step files link = Raise AttributeError).
Proof.
  intros meeting_id soup link Hin Hnone.
  assert (Hstep : forall files out, legacy_step files link <> Ok out).
  { intros files out H. apply legacy_step_ok in H as (f & _ & parent & child & _ & _ & Hc & _).
    congruence. }
  split; [|split].
  - destruct (agenda_of_soup meeting_id soup) as [a|e] eqn:E; [|eauto].
    apply agenda_of_soup_ok in E as (_ & _ & public & _ & _ & _ & _ & _ & Hfiles).
    destruct (rfold_ok_each _ _ _ _ link Hfiles Hin) as (acc & out & H).
    destruct (Hstep _ _ H).
  - intros files. destruct (legacy_step files link) as [out|e] eqn:E; [|eauto].
    destruct (Hstep _ _ E).
  - intros files parent item Hp Hi. unfold legacy_step.
    rewrite Hp. simpl. unfold subject_of. rewrite Hi. simpl.
    rewrite findChild_first_child, Hnone. reflexivity.
Qed.

Lemma bare_legacy_link_raises_witness :
  agenda_of_soup (PyStr "1") Sample.page_bare_link = Raise AttributeError
  /\ exists e, agenda_of_soup (PyStr "1") Sample.page_bare_link = Raise e.
Proof.
  split; [reflexivity|].
  refine (proj1 (bare_legacy_link_raises (PyStr "1") Sample.page_bare_link
                   (hd ([], Text "") (find_all_href "legacy-content" Sample.page_bare_link))
                   _ eq_refl)).
  left. reflexivity.
Defined.

(** *** The Subject line *)

Lemma prefix_drop p s : prefix p s = true -> s = (p ++ drop (String.length p) s)%string.
Proof.
  revert s. induction p as [|c p IH]; intros s H; [reflexivity|].
  destruct s as [|c' s]; [discriminate|]. simpl in *.
  destruct (ascii_dec c c') as [->|]; [|discriminate].
  f_equal. apply IH, H.
Qed.

Lemma line_of_split u :
  exists post,
    u = (line_of u ++ post)%string /\
    (forall a b, line_of u <> (a ++ String newline b)%string) /\
    (post = "" \/ exists post', post = String newline post').
Proof.
  induction u as [|c u (post & Hu & Hline & Hpost)]; simpl.
  - exists "". split; [reflexivity|]. split; [|auto].
    intros [|? ?] b; discriminate.
  - destruct (Ascii.eqb_spec c newline) as [->|Hc].
    + exists (String newline u). split; [reflexivity|]. split; [|eauto].
      intros [|? ?] b; discriminate.
    + exists post. split; [simpl; f_equal; exact Hu|]. split; [|exact Hpost].
      intros [|c' a] b E; simpl in E; inv E; [congruence|].
      eapply Hline. eassumption.
Qed.

Lemma search_subject_sound text l :
  search_subject text = Some l -> subject_line text l.
Proof.
  induction text as [|c text IH]; [discriminate|].
  intros H.
  assert (Hrest : search_subject text = Some l -> subject_line (String c text) l).
  { intros H'. destruct (IH H') as (pre & post & -> & Hl).
    exists (String c pre), post. split; [reflexivity | exact Hl]. }
  cbn [search_subject] in H.
  destruct (prefix Subject_label (String c text)) eqn:Hp; [|auto].
  destruct (line_of (drop 8 (String c text))) as [|c' l'] eqn:Hline; [auto|].
  inv H. apply prefix_drop in Hp. change (String.length Subject_label) with 8 in Hp.
  destruct (line_of_split (drop 8 (String c text))) as (post & Hu & Hone & Hpost).
  rewrite Hline in Hu, Hone.
  exists "", post. split; [|split; [discriminate | split; assumption]].
  rewrite Hp at 1. rewrite Hu at 1. reflexivity.
Qed.

(** *** The scan of the items *)

Lemma subsequence_nil {A} (l : list A) : subsequence [] l.
Proof. induction l; constructor; assumption. Qed.

Lemma subsequence_refl {A} (l : list A) : subsequence l l.
Proof. induction l; constructor; assumption. Qed.

Lemma subsequence_app {A} (s1 l1 s2 l2 : list A) :
  subsequence s1 l1 -> subsequence s2 l2 -> subsequence (s1 ++ s2) (l1 ++ l2).
Proof.
  induction 1; simpl; intros H2; [exact H2 | apply sub_skip; auto | apply sub_take; auto].
Qed.

Lemma subsequence_In {A} (s l : list A) x : subsequence s l -> In x s -> In x l.
Proof.
  induction 1; simpl; intros Hin; auto.
  destruct Hin; auto.
Qed.

Lemma existsb_eqb_In t items : existsb (String.eqb t) items = true <-> In t items.
Proof.
  rewrite existsb_exists. split.
  - intros (x & Hin & E). apply String.eqb_eq in E. subst. exact Hin.
  - intros Hin. exists t. split; [exact Hin | apply String.eqb_refl].
Qed.

(** The three things one step of the scan can do. *)
Lemma item_step_cases items div out :
  item_step items div = Ok out ->
  (out = items /\ ordering_subject div = [])
  \/ (out = items ++ [text_of (snd div)] /\ level_one div /\
      ~ In (text_of (snd div)) items /\ ordering_subject div = [])
  \/ (exists s, out = items ++ [s] /\ ordering_rule div /\ ordering_subject div = [s]).
Proof.
  unfold item_step, ordering_subject, has_attr, get_attr, level_one, ordering_rule,
    ordering_class, subject_of.
  destruct (lookup "aria-level" (attrs_of (snd div))) as [v|]; simpl.
  - destruct (py_eqb v (PyStr "1")) eqn:Ev; [|intros H; inv H; auto].
    destruct (existsb (String.eqb (text_of (snd div))) items) eqn:Ein;
      intros H; inv H; [auto|].
    right. left. repeat split; eauto.
    rewrite <- existsb_eqb_In. congruence.
  - destruct (lookup "class" (attrs_of (snd div))) as [cls|]; simpl;
      [|intros H; inv H; auto].
    destruct (py_in "agendaorder" cls) as [[|]|] eqn:Ein; simpl;
      [| intros H; inv H; auto | discriminate].
    destruct (search_subject (text_of (snd div))) as [s|]; simpl; [|discriminate].
    intros H. inv H. right. right. exists s. eauto 10.
Qed.

Lemma item_step_level_one items div :
  level_one div ->
  item_step items div =
  Ok (if existsb (String.eqb (text_of (snd div))) items
      then items else items ++ [text_of (snd div)]).
Proof.
  intros (v & Hv & E). unfold item_step, has_attr, get_attr. rewrite Hv. simpl.
  rewrite E. destruct (existsb _ items); reflexivity.
Qed.

Lemma item_step_ordering items div s :
  ordering_rule div -> search_subject (text_of (snd div)) = Some s ->
  item_step items div = Ok (items ++ [s]).
Proof.
  intros (Hl & cls & Hc & Hin) Hs. unfold item_step, has_attr, get_attr, subject_of.
  rewrite Hl, Hc. simpl. rewrite Hin. simpl. rewrite Hs. reflexivity.
Qed.

Lemma items_loop_extends divs items out :
  rfold item_step divs items = Ok out ->
  exists extra, out = items ++ extra /\
                subsequence (flat_map ordering_subject divs) extra.
Proof.
  revert items. induction divs as [|d divs IH]; intros items H; simpl in H.
  - inv H. exists []. rewrite app_nil_r. split; [reflexivity | constructor].
  - apply rbind_ok in H as (mid & Hstep & H).
    apply IH in H as (extra & -> & Hsub). simpl.
    apply item_step_cases in Hstep
      as [(-> & ->) | [(-> & _ & _ & ->) | (s & -> & _ & ->)]]; simpl.
    + eauto.
    + exists (text_of (snd d) :: extra). rewrite <- app_assoc.
      split; [reflexivity | constructor; exact Hsub].
    + exists (s :: extra). rewrite <- app_assoc.
      split; [reflexivity | constructor; exact Hsub].
Qed.

(** A text is repeated among the items only as often as the rule of the
    ["agendaorder"] class adds it, plus once. *)
Lemma items_loop_count divs items out t :
  rfold item_step divs items = Ok out ->
  count_occ string_dec out t
  <= Nat.max (count_occ string_dec items t) 1
     + count_occ string_dec (flat_map ordering_subject divs) t.
Proof.
  revert items. induction divs as [|d divs IH]; intros items H; simpl in H.
  - inv H. simpl. lia.
  - apply rbind_ok in H as (mid & Hstep & H). apply IH in H.
    simpl flat_map. rewrite count_occ_app.
    apply item_step_cases in Hstep
      as [(-> & ->) | [(-> & _ & Hnew & ->) | (s & -> & _ & ->)]].
    + simpl. lia.
    + rewrite count_occ_app in H. simpl in *.
      destruct (string_dec (text_of (snd d)) t) as [E|_]; [|lia].
      rewrite E in Hnew. apply (count_occ_not_In string_dec) in Hnew. lia.
    + rewrite count_occ_app in H. simpl in *.
      destruct (string_dec s t); lia.
Qed.

Lemma items_loop_seen divs items t :
  In t items ->
  Forall (fun d => level_one d /\ text_of (snd d) = t) divs ->
  rfold item_step divs items = Ok items.
Proof.
  intros Hin. induction 1 as [|d divs [Hl Ht] _ IH]; simpl; [reflexivity|].
  rewrite (item_step_level_one items d Hl), Ht.
  apply existsb_eqb_In in Hin. rewrite Hin. simpl. exact IH.
Qed.

Lemma items_loop_level_one divs items out d :
  rfold item_step divs items = Ok out ->
  In d divs -> level_one d -> In (text_of (snd d)) out.
Proof.
  revert items. induction divs as [|x divs IH]; intros items H Hin Hl; [destruct Hin|].
  simpl in H. apply rbind_ok in H as (mid & Hstep & H).
  destruct Hin as [->|Hin]; [|eauto].
  rewrite (item_step_level_one items d Hl) in Hstep.
  apply items_loop_extends in H as (extra & -> & _).
  apply in_or_app. left.
  destruct (existsb (String.eqb (text_of (snd d))) items) eqn:E; inv Hstep.
  - apply (proj1 (existsb_eqb_In _ _) E).
  - apply in_or_app. right. left. reflexivity.
Qed.

Lemma items_loop_ordering divs items s :
  Forall (fun d => ordering_rule d /\ search_subject (text_of (snd d)) = Some s) divs ->
  rfold item_step divs items = Ok (items ++ repeat s (List.length divs)).
Proof.
  intros H. revert items. induction H as [|d divs [Hr Hs] _ IH]; intros items; simpl.
  - rewrite app_nil_r. reflexivity.
  - rewrite (item_step_ordering items d s Hr Hs). simpl.
    rewrite IH, <- app_assoc. reflexivity.
Qed.

(** C3, as the extractor has it.  A [div] whose [aria-level] is ["1"]
    adds its whole text unless that text is already among the items; a [div]
    under the rule of the ["agendaorder"] class, that is one of the class
    that has no [aria-level] attribute, adds its Subject line whether or not
    it is already there.  So any number of top-level elements
    with one text leave one item, and [n] elements of the class with one
    Subject line leave [n] items.  For a page on which the extractor returns,
    the items are what the scan over the [div] elements in document order
    accumulates from the empty list: the text of every top-level element is
    among them, the Subject lines are among them in document order, one per
    element, and a text occurs at most once more often than the rule of the
    class added it. *)
Theorem item_deduplication :
  (forall items div,
      level_one div ->
      item_step items div =
      Ok (if existsb (String.eqb (text_of (snd div))) items
          then items else items ++ [text_of (snd div)]))
  /\ (forall items div s,
      ordering_rule div -> search_subject (text_of (snd div)) = Some s ->
      item_step items div = Ok (items ++ [s]))
  /\ (forall divs t,
      divs <> [] ->
      Forall (fun d => level_one d /\ text_of (snd d) = t) divs ->
      rfold item_step divs [] = Ok [t])
  /\ (forall divs s,
      Forall (fun d => ordering_rule d /\ search_subject (text_of (snd d)) = Some s) divs ->
      rfold item_step divs [] = Ok (repeat s (List.length divs)))
  /\ (forall meeting_id soup a,
      agenda_of_soup meeting_id soup = Ok a ->
      let divs := find_all "div" soup in
      rfold item_step divs [] = Ok (agenda_items a)
      /\ (forall div, In div divs -> level_one div ->
                      In (text_of (snd div)) (agenda_items a))
      /\ subsequence (flat_map ordering_subject divs) (agenda_items a)
      /\ (forall t,
            count_occ string_dec (agenda_items a) t
            <= 1 + count_occ string_dec (flat_map ordering_subject divs) t)).
Proof.
  split; [exact item_step_level_one|].
  split; [exact item_step_ordering|].
  split; [|split].
  - intros divs t Hne H. destruct H as [|d divs [Hl Ht] Hrest]; [congruence|].
    simpl. rewrite (item_step_level_one [] d Hl), Ht. simpl.
    apply (items_loop_seen divs [t] t); [left; reflexivity | exact Hrest].
  - intros divs s H. apply (items_loop_ordering divs [] s H).
  - intros meeting_id soup a H divs.
    apply agenda_of_soup_ok in H as (_ & _ & _ & _ & _ & _ & Hitems & _).
    fold divs in Hitems. split; [exact Hitems|]. split; [|split].
    + intros div Hin Hl. eapply items_loop_level_one; eassumption.
    + destruct (items_loop_extends _ _ _ Hitems) as (extra & -> & Hsub). exact Hsub.
    + intros t. apply (items_loop_count _ _ _ t) in Hitems. simpl in Hitems. exact Hitems.
Qed.

Lemma item_deduplication_witness :
  rfold item_step [heading_div "1. Opening"; heading_div "1. Opening"; heading_div "1. Opening"] []
  = Ok ["1. Opening"]
  /\ rfold item_step [ordered_div [] "Budget"; ordered_div [] "Budget"] []
     = Ok ["Budget"; "Budget"]
  /\ rfold item_step (find_all "div" Sample.page) [] = Ok ["1. Opening"; "Budget"; "Budget"].
Proof.
  destruct item_deduplication as (_ & _ & Hlevel & Hclass & Hpage).
  split; [|split].
  - apply (Hlevel _ "1. Opening"); [discriminate|].
    repeat constructor; exists (PyStr "1"); split; reflexivity.
  - apply (Hclass [ordered_div [] "Budget"; ordered_div [] "Budget"] "Budget").
    repeat constructor; exists (PyList ["item"; "agendaorder"]); split; reflexivity.
  - exact (proj1 (Hpage (PyStr "1") Sample.page (sample_agenda "1") eq_refl)).
Defined.

(** Two [div] elements of the class with the same Subject line that
    also carry the top level: they leave one item, their whole text, and no
    Subject line. *)
Lemma top_level_ordering_divs_are_merged :
  exists d1 d2 a,
    find_all "div" page_top_level_items
    = firstn 3 (find_all "div" page_top_level_items) ++ [d1; d2]
    /\ ordering_class d1 /\ ordering_class d2
    /\ search_subject (text_of (snd d1)) = Some "Budget"
    /\ search_subject (text_of (snd d2)) = Some "Budget"
    /\ agenda_of_soup (PyStr "1") page_top_level_items = Ok a
    /\ agenda_items a
       = [(Sample.line "Subject" ++ Sample.line "Budget" ++ Sample.line "Type")%string]
    /\ count_occ string_dec (agenda_items a) "Budget" = 0.
Proof.
  exists (nth 3 (find_all "div" page_top_level_items) ([], Text "")).
  exists (nth 4 (find_all "div" page_top_level_items) ([], Text "")).
  eexists.
  split; [reflexivity|].
  split; [exists (PyList ["item"; "agendaorder"]); split; reflexivity|].
  split; [exists (PyList ["item"; "agendaorder"]); split; reflexivity|].
  split; [reflexivity|]. split; [reflexivity|]. split; [reflexivity|].
  split; reflexivity.
Qed.

(** C4, as the extractor has it.  On a page on which the extractor
    returns, every [div] of class ["agendaorder"] that has no [aria-level]
    attribute adds an item: the text that follows the label ["Subject"] and
    its line feed, up to the end of that line; these items are among the
    items in document order, one per element.  A [div] that has an
    [aria-level] attribute is left to the rule of the level, whatever its
    class: it adds its whole text or nothing.  Both rules fire on the sample
    page. *)
Theorem ordering_rule_coverage :
  forall (meeting_id : pyval) (soup : list node) (a : agenda),
    agenda_of_soup meeting_id soup = Ok a ->
    (forall div,
        In div (find_all "div" soup) -> ordering_rule div ->
        exists s, search_subject (text_of (snd div)) = Some s /\
                  subject_line (text_of (snd div)) s /\
                  In s (agenda_items a))
    /\ subsequence (flat_map ordering_subject (find_all "div" soup)) (agenda_items a)
    /\ (forall div items,
        lookup "aria-level" (attrs_of (snd div)) <> None ->
        ordering_subject div = [] /\
        (item_step items div = Ok items \/
         item_step items div = Ok (items ++ [text_of (snd div)])))
    /\ (exists page items h o s,
        rfold item_step (find_all "div" page) [] = Ok items /\
        In h (find_all "div" page) /\ level_one h /\ In (text_of (snd h)) items /\
        In o (find_all "div" page) /\ ordering_rule o /\
        search_subject (text_of (snd o)) = Some s /\ In s items).
Proof.
  intros meeting_id soup a H.
  apply agenda_of_soup_ok in H as (_ & _ & _ & _ & _ & _ & Hitems & _).
  destruct (items_loop_extends _ _ _ Hitems) as (extra & Hextra & Hsub).
  simpl in Hextra. subst extra.
  split; [|split; [exact Hsub|split]].
  - intros div Hin Hrule.
    destruct (rfold_ok_each _ _ _ _ div Hitems Hin) as (acc & out & Hstep).
    assert (Hs : exists s, search_subject (text_of (snd div)) = Some s).
    { destruct Hrule as (Hl & cls & Hc & Hcls).
      unfold item_step, has_attr, get_attr, subject_of in Hstep.
      rewrite Hl, Hc in Hstep. simpl in Hstep. rewrite Hcls in Hstep. simpl in Hstep.
      destruct (search_subject (text_of (snd div))) as [s|]; [eauto | discriminate]. }
    destruct Hs as (s & Hs). exists s.
    split; [exact Hs|]. split; [apply search_subject_sound, Hs|].
    apply (subsequence_In _ _ s Hsub). apply in_flat_map. exists div.
    split; [exact Hin|].
    destruct Hrule as (Hl & cls & Hc & Hcls).
    unfold ordering_subject. rewrite Hl, Hc, Hcls, Hs. left. reflexivity.
  - intros div items Hlevel.
    unfold ordering_subject, item_step, has_attr, get_attr.
    destruct (lookup "aria-level" (attrs_of (snd div))) as [v|]; [|congruence].
    split; [reflexivity|]. simpl.
    destruct (py_eqb v (PyStr "1")); [|auto].
    destruct (existsb _ items); auto.
  - exists Sample.page, ["1. Opening"; "Budget"; "Budget"].
    exists (nth 5 (find_all "div" Sample.page) ([], Text "")).
    exists (nth 8 (find_all "div" Sample.page) ([], Text "")), "Budget".
    split; [reflexivity|].
    split; [do 5 right; left; reflexivity|].
    split; [exists (PyStr "1"); split; reflexivity|].
    split; [left; reflexivity|].
    split; [do 8 right; left; reflexivity|].
    split; [split; [reflexivity | exists (PyList ["item"; "agendaorder"]); split; reflexivity]|].
    split; [reflexivity|].
    right. left. reflexivity.
Qed.

Lemma ordering_rule_coverage_witness :
  subsequence (flat_map ordering_subject (find_all "div" Sample.page))
              ["1. Opening"; "Budget"; "Budget"].
Proof.
  exact (proj1 (proj2 (ordering_rule_coverage (PyStr "1") Sample.page (sample_agenda "1")
                         eq_refl))).
Defined.

(** A [div] of the class that also has a level: it has a Subject line and
    adds no item. *)
Lemma levelled_ordering_div_adds_nothing :
  exists div a,
    In div (find_all "div" Sample.page_levelled_item)
    /\ ordering_class div
    /\ search_subject (text_of (snd div)) = Some "Budget"
    /\ agenda_of_soup (PyStr "1") Sample.page_levelled_item = Ok a
    /\ agenda_items a = []
    /\ ~ In "Budget" (agenda_items a).
Proof.
  exists (nth 3 (find_all "div" Sample.page_levelled_item) ([], Text "")).
  eexists.
  split; [do 3 right; left; reflexivity|].
  split; [exists (PyList ["item"; "agendaorder"]); split; reflexivity|].
  split; [reflexivity|].
  split; [reflexivity|].
  split; [reflexivity|].
  intros [].
Qed.

(** * Further properties *)

(** ** The fetcher: errors, labels and bounds *)

Lemma rmap_ok_each {A B} (f : A -> result B) l out :
  rmap f l = Ok out -> Forall (fun x => exists y, f x = Ok y) l.
Proof.
  revert out. induction l as [|x l IH]; intros out H; [constructor|].
  simpl in H. apply rbind_ok in H as (y & Hy & H). apply rbind_ok in H as (ys & Hys & _).
  constructor; eauto.
Qed.

Lemma numberdate_ints_ok_dated l ds :
  numberdate_ints (mk_frame meeting_columns l) = Ok ds -> Forall dated l.
Proof.
  unfold numberdate_ints, column. simpl. intros H. apply rmap_ok_each in H.
  rewrite Forall_map in H. exact H.
Qed.

Section DateFilter.

Variable l : list (nat * row).
Hypothesis Hdated : Forall dated l.

Lemma filter_by_date_to x to hi :
  type_is_str x = false -> py_int to = Some hi ->
  filter_by_date (Some (x, PyStr to)) (mk_frame meeting_columns l)
  = Ok (mk_frame meeting_columns (filter (fun r => (date_int r <=? hi)%Z) l)).
Proof.
  intros Hx Hto. unfold filter_by_date. simpl. rewrite Hx. simpl.
  rewrite numberdate_ints_dated by assumption. simpl.
  unfold int_of. rewrite Hto. unfold select. simpl. f_equal. f_equal.
  rewrite map_map. apply mask_is_filter.
Qed.

Lemma filter_by_date_from from y lo :
  type_is_str y = false -> py_int from = Some lo ->
  filter_by_date (Some (PyStr from, y)) (mk_frame meeting_columns l)
  = Ok (mk_frame meeting_columns (filter (fun r => (lo <=? date_int r)%Z) l)).
Proof.
  intros Hy Hfrom. unfold filter_by_date. simpl. rewrite Hy. simpl.
  rewrite numberdate_ints_dated by assumption. simpl.
  unfold int_of. rewrite Hfrom. unfold select. simpl. f_equal. f_equal.
  rewrite map_map. rewrite (mask_is_filter (fun r => (date_int r >=? lo)%Z)).
  apply filter_ext. intros r. rewrite Z.geb_leb. reflexivity.
Qed.

Lemma filter_by_date_between from to lo hi :
  py_int from = Some lo -> py_int to = Some hi ->
  filter_by_date (Some (PyStr from, PyStr to)) (mk_frame meeting_columns l)
  = Ok (mk_frame meeting_columns
          (filter (fun r => (lo <=? date_int r)%Z && (date_int r <=? hi)%Z) l)).
Proof.
  intros Hfrom Hto. unfold filter_by_date. simpl.
  rewrite numberdate_ints_dated by assumption. simpl.
  unfold int_of. rewrite Hfrom, Hto. simpl. unfold select. simpl. f_equal. f_equal.
  rewrite !map_map.
  rewrite (mask_and_is_filter (fun r => (date_int r >=? lo)%Z)
                              (fun r => (date_int r <=? hi)%Z)).
  apply filter_ext. intros r. rewrite Z.geb_leb. reflexivity.
Qed.

End DateFilter.

Lemma never_rbind {A B} e (r : result A) (k : A -> result B) :
  never e r -> (forall a, never e (k a)) -> never e (rbind r k).
Proof.
  intros Hr Hk. destruct r; simpl; [apply Hk|].
  intros E. apply Hr. inv E. reflexivity.
Qed.

Lemma never_rmap {A B} e (f : A -> result B) l :
  (forall x, never e (f x)) -> never e (rmap f l).
Proof.
  intros H. induction l as [|x l IH]; simpl; [discriminate|].
  apply never_rbind; [apply H|]. intros y. apply never_rbind; [apply IH|].
  discriminate.
Qed.

Lemma never_rfold {A B} e (body : B -> A -> result B) l acc :
  (forall a x, never e (body a x)) -> never e (rfold body l acc).
Proof.
  intros H. revert acc. induction l as [|x l IH]; intros acc; simpl; [discriminate|].
  apply never_rbind; auto.
Qed.

Ltac never_tac :=
  repeat first
    [ progress intros
    | apply never_rbind
    | apply never_rmap
    | apply never_rfold
    | match goal with
      | |- never _ (Ok _) => discriminate
      | |- never _ (Raise _) => discriminate
      | |- never _ (if ?b then _ else _) => destruct b
      | |- never _ (match ?x with _ => _ end) => destruct x
      end ].

(** The filter raises no [KeyError] on a frame that has its columns. *)
Lemma filter_by_date_no_KeyError date l :
  never KeyError (filter_by_date date (mk_frame meeting_columns l)).
Proof.
  unfold filter_by_date, numberdate_ints, column, int64_of, int_of. simpl. never_tac.
Qed.

(** X1.  The fetcher raises [KeyError] exactly when the site answers the
    empty feed: a frame built from no record has no [meeting_id] column for
    [dropna], and nothing else in the function raises that error.  The date
    filter plays no part in it. *)
Theorem fetcher_KeyError_iff_empty_feed :
  forall (web : remote) (site c : string) (date : option (pyval * pyval))
         (log : list request),
    fst (get_boarddoc_meetings web site c date log) = Raise KeyError
    <-> meetings_feed web (meetings_url site) (meetings_data c) = Reply [].
Proof.
  intros web site c date log. rewrite get_boarddoc_meetings_run. simpl fst.
  destruct (meetings_feed web (meetings_url site) (meetings_data c)) as [feed| |] eqn:Hfeed.
  - destruct feed as [|j feed].
    + unfold fetched, get_boarddoc_meetings, bind, post_json, lift. simpl.
      rewrite Hfeed. simpl. split; reflexivity.
    + rewrite (fetched_reply web site c date (j :: feed) Hfeed) by discriminate.
      split; [|discriminate]. intros H. destruct (filter_by_date_no_KeyError _ _ H).
  - unfold fetched, get_boarddoc_meetings, bind, post_json, lift. simpl.
    rewrite Hfeed. simpl. split; discriminate.
  - unfold fetched, get_boarddoc_meetings, bind, post_json, lift. simpl.
    rewrite Hfeed. simpl. split; discriminate.
Qed.

(** X2.  When a side of the date tuple is a string and the feed is
    answered and not empty, the fetcher returns exactly when the date of
    every record that carries an identifier converts to an integer and every
    side that is a string does: one record with an identifier and a missing or
    malformed date makes the whole call raise, also when the record lies
    outside the range, while a record without identifier never does. *)
Theorem fetcher_returns_iff_dates_convert :
  forall (web : remote) (site c : string) (d0 d1 : pyval) (log : list request)
         (feed : list json_object),
    meetings_feed web (meetings_url site) (meetings_data c) = Reply feed ->
    feed <> [] ->
    type_is_str d0 || type_is_str d1 = true ->
    (exists out, fst (get_boarddoc_meetings web site c (Some (d0, d1)) log) = Ok out)
    <-> Forall dated (identified c feed) /\ bounds_convert d0 d1.
Proof.
  intros web site c d0 d1 log feed Hfeed Hne Hstr.
  rewrite get_boarddoc_meetings_run. simpl fst.
  rewrite (fetched_reply web site c _ feed Hfeed Hne).
  unfold bounds_convert. split.
  - intros (out & H). unfold filter_by_date in H.
    destruct (type_is_str d0) eqn:E0, (type_is_str d1) eqn:E1; simpl in H;
      try discriminate;
      apply rbind_ok in H as (ds & Hds & H);
      apply numberdate_ints_ok_dated in Hds;
      apply rbind_ok in H as (z & Hz & H).
    + apply rbind_ok in H as (ds' & _ & H). apply rbind_ok in H as (z' & Hz' & _).
      split; [exact Hds|]. split; eauto.
    + split; [exact Hds|]. split; [eauto | discriminate].
    + split; [exact Hds|]. split; [discriminate | eauto].
  - intros (Hd & H0 & H1). unfold filter_by_date.
    destruct (type_is_str d0) eqn:E0, (type_is_str d1) eqn:E1; simpl;
      try discriminate;
      rewrite numberdate_ints_dated by assumption; simpl.
    + destruct (H0 eq_refl) as (lo & ->). destruct (H1 eq_refl) as (hi & ->).
      simpl. eauto.
    + destruct (H0 eq_refl) as (lo & ->). simpl. eauto.
    + destruct (H1 eq_refl) as (hi & ->). simpl. eauto.
Qed.

Lemma fetcher_returns_iff_dates_convert_witness :
  (exists out, fst (get_boarddoc_meetings Sample.web Sample.site "C"
                      (Some (PyNone, PyStr "20241231")) []) = Ok out)
  <-> Forall dated (identified "C" Sample.feed_C) /\ bounds_convert PyNone (PyStr "20241231").
Proof.
  exact (fetcher_returns_iff_dates_convert Sample.web Sample.site "C" PyNone
           (PyStr "20241231") [] Sample.feed_C eq_refl ltac:(discriminate) eq_refl).
Defined.

Lemma in_combine_seq {A} (l : list A) k i x :
  In (i, x) (combine (seq k (List.length l)) l) -> k <= i /\ nth_error l (i - k) = Some x.
Proof.
  revert k. induction l as [|y l IH]; intros k H; [destruct H|].
  simpl in H. destruct H as [H|H].
  - inv H. rewrite Nat.sub_diag. split; [lia | reflexivity].
  - apply IH in H as [Hle Hn]. split; [lia|].
    replace (i - k) with (S (i - S k)) by lia. exact Hn.
Qed.

Lemma in_enumerate {A} (l : list A) i x :
  In (i, x) (enumerate l) -> nth_error l i = Some x.
Proof.
  intros H. apply in_combine_seq in H as [_ H]. rewrite Nat.sub_0_r in H. exact H.
Qed.

Lemma seq_sorted k n : StronglySorted lt (seq k n).
Proof.
  revert k. induction n as [|n IH]; intros k; simpl; constructor; [apply IH|].
  apply Forall_forall. intros i Hi. apply in_seq in Hi. lia.
Qed.

Lemma subsequence_filter {A} (p : A -> bool) l : subsequence (filter p l) l.
Proof.
  induction l as [|x l IH]; simpl; [constructor|].
  destruct (p x); constructor; exact IH.
Qed.

Lemma subsequence_trans {A} (a b c : list A) :
  subsequence a b -> subsequence b c -> subsequence a c.
Proof.
  intros Hab Hbc. revert a Hab.
  induction Hbc as [|x b c _ IH|x b c _ IH]; intros a Hab.
  - exact Hab.
  - constructor. apply IH, Hab.
  - inversion Hab; subst; constructor; apply IH; assumption.
Qed.

Lemma subsequence_Forall {A} (P : A -> Prop) s l :
  subsequence s l -> Forall P l -> Forall P s.
Proof.
  intros Hs Hl. apply Forall_forall. intros x Hx.
  rewrite Forall_forall in Hl. eapply Hl, subsequence_In; eassumption.
Qed.

Lemma subsequence_sorted {A} (R : A -> A -> Prop) s l :
  subsequence s l -> StronglySorted R l -> StronglySorted R s.
Proof.
  induction 1 as [|x s l Hs IH|x s l Hs IH]; intros Hl.
  - constructor.
  - inv Hl. apply IH. assumption.
  - inv Hl. constructor; [apply IH; assumption|].
    eapply subsequence_Forall; eassumption.
Qed.

Lemma subsequence_select mask df : subsequence (rows (select mask df)) (rows df).
Proof.
  unfold select. simpl. generalize (rows df). intros l. revert mask.
  induction l as [|x l IH]; intros [|b mask]; simpl; try apply subsequence_nil.
  destruct b; simpl; constructor; apply IH.
Qed.

Lemma filter_by_date_subsequence date df out :
  filter_by_date date df = Ok out -> subsequence (rows out) (rows df).
Proof.
  unfold filter_by_date. destruct date as [[d0 d1]|];
    [|intros H; inv H; apply subsequence_refl].
  repeat match goal with
         | |- context [if ?b then _ else _] => destruct b
         end; intros H;
    repeat (apply rbind_ok in H as (? & _ & H));
    inv H; auto using subsequence_select, subsequence_refl.
Qed.

(** X3.  What the fetcher returns keeps the order and the labels of the
    feed: the label of a returned row is the position of its record in the
    feed (labels are not renumbered after records are dropped), the row is the
    projection of that record with the committee of the call in its
    [committee_id], and the labels increase strictly. *)
Theorem fetcher_rows_are_feed_positions :
  forall (web : remote) (site c : string) (date : option (pyval * pyval))
         (log : list request) (out : DataFrame),
    fst (get_boarddoc_meetings web site c date log) = Ok out ->
    exists feed,
      meetings_feed web (meetings_url site) (meetings_data c) = Reply feed /\
      columns out = meeting_columns /\
      Forall (fun r => exists j, nth_error feed (fst r) = Some j /\
                                 snd r = project c j /\
                                 committee_id (snd r) = PyStr c)
             (rows out) /\
      StronglySorted lt (map fst (rows out)).
Proof.
  intros web site c date log out. rewrite get_boarddoc_meetings_run. simpl fst.
  intros Hout. destruct (fetched_ok_feed _ _ _ _ _ Hout) as (feed & Hfeed & Hne).
  exists feed. split; [exact Hfeed|].
  split; [eapply fetched_columns; eassumption|].
  rewrite (fetched_reply _ _ _ _ feed Hfeed Hne) in Hout.
  apply filter_by_date_subsequence in Hout. simpl in Hout.
  assert (Hsub : subsequence (rows out) (enumerate (map (project c) feed))).
  { eapply subsequence_trans; [exact Hout | apply subsequence_filter]. }
  split.
  - apply (subsequence_Forall _ _ _ Hsub). apply Forall_forall. intros [i r] Hin.
    apply in_enumerate in Hin. rewrite nth_error_map in Hin.
    destruct (nth_error feed i) as [j|] eqn:Ej; inv Hin.
    exists j. simpl. rewrite Ej. auto.
  - apply (subsequence_sorted lt _ _ (subsequence_map fst _ _ Hsub)).
    unfold enumerate. rewrite combine_map_fst_seq. apply seq_sorted.
Qed.

Lemma fetcher_rows_are_feed_positions_witness :
  exists feed,
    meetings_feed Sample.web (meetings_url Sample.site) (meetings_data "C") = Reply feed /\
    meeting_columns = meeting_columns /\
    Forall (fun r => exists j, nth_error feed (fst r) = Some j /\
                               snd r = project "C" j /\
                               committee_id (snd r) = PyStr "C")
           [sample_row 1 "3" "C" "20240301"] /\
    StronglySorted lt (map fst [sample_row 1 "3" "C" "20240301"]).
Proof.
  exact (fetcher_rows_are_feed_positions Sample.web Sample.site "C" None []
           (mk_frame meeting_columns [sample_row 1 "3" "C" "20240301"]) eq_refl).
Defined.

Lemma filter_none {A} (p : A -> bool) l : (forall x, p x = false) -> filter p l = [].
Proof.
  intros H. induction l as [|x l IH]; simpl; [reflexivity|]. rewrite H. exact IH.
Qed.

Lemma filter_filter {A} (p q : A -> bool) l :
  filter q (filter p l) = filter (fun x => p x && q x) l.
Proof.
  induction l as [|x l IH]; simpl; [reflexivity|].
  destruct (p x); simpl; [destruct (q x); simpl; rewrite IH; reflexivity | exact IH].
Qed.

Section Bounds.

Variable web : remote.
Variables site c : string.
Variable feed : list json_object.
Hypothesis Hfeed : meetings_feed web (meetings_url site) (meetings_data c) = Reply feed.
Hypothesis Hne : feed <> [].
Hypothesis Hdated : Forall dated (identified c feed).

Variables from to : string.
Variables lo hi : Z.
Hypothesis Hfrom : py_int from = Some lo.
Hypothesis Hto : py_int to = Some hi.

Lemma fetch_by_date date log :
  fst (get_boarddoc_meetings web site c date log)
  = filter_by_date date (mk_frame meeting_columns (identified c feed)).
Proof.
  rewrite get_boarddoc_meetings_run. simpl fst. apply fetched_reply; assumption.
Qed.

(** X4.  A date tuple whose first bound lies after its second is not an
    error: the fetcher returns the frame with its four columns and no row. *)
Theorem fetcher_inverted_range_is_empty :
  forall log : list request,
    (hi < lo)%Z ->
    fst (get_boarddoc_meetings web site c (Some (PyStr from, PyStr to)) log)
    = Ok (mk_frame meeting_columns []).
Proof.
  intros log Hlt. rewrite fetch_by_date.
  rewrite (filter_by_date_between _ Hdated from to lo hi Hfrom Hto).
  rewrite filter_none; [reflexivity|].
  intros r. destruct (Z.leb_spec lo (date_int r)), (Z.leb_spec (date_int r) hi);
    simpl; try reflexivity. lia.
Qed.

(** X5.  The two-sided filter is the composition of the one-sided ones:
    the three calls return, and the rows between the bounds are the rows at
    or after the first bound filtered by the second, and the rows at or
    before the second bound filtered by the first. *)
Theorem fetcher_two_sided_composes :
  forall log : list request,
    exists both after before,
      fst (get_boarddoc_meetings web site c (Some (PyStr from, PyStr to)) log) = Ok both /\
      fst (get_boarddoc_meetings web site c (Some (PyStr from, PyNone)) log) = Ok after /\
      fst (get_boarddoc_meetings web site c (Some (PyNone, PyStr to)) log) = Ok before /\
      rows both = filter (fun r => (date_int r <=? hi)%Z) (rows after) /\
      rows both = filter (fun r => (lo <=? date_int r)%Z) (rows before) /\
      (forall r, In r (rows both) <-> In r (rows after) /\ In r (rows before)).
Proof.
  intros log. rewrite !fetch_by_date.
  rewrite (filter_by_date_between _ Hdated from to lo hi Hfrom Hto).
  rewrite (filter_by_date_from _ Hdated from PyNone lo eq_refl Hfrom).
  rewrite (filter_by_date_to _ Hdated PyNone to hi eq_refl Hto).
  do 3 eexists. repeat split; try reflexivity; simpl.
  - rewrite filter_filter. reflexivity.
  - rewrite filter_filter. apply filter_ext. intros r. apply andb_comm.
  - apply filter_In in H. destruct H as [H E]. apply andb_prop in E as [E _].
    apply filter_In. auto.
  - apply filter_In in H. destruct H as [H E]. apply andb_prop in E as [_ E].
    apply filter_In. auto.
  - intros [Ha Hb]. apply filter_In in Ha as [Hin Ea]. apply filter_In in Hb as [_ Eb].
    apply filter_In. rewrite Ea, Eb. auto.
Qed.

End Bounds.

Lemma fetcher_inverted_range_is_empty_witness :
  fst (get_boarddoc_meetings Sample.web Sample.site "B"
         (Some (PyStr "20241231", PyStr "20240101")) [])
  = Ok (mk_frame meeting_columns []).
Proof.
  assert (Hd : Forall dated (identified "B" Sample.feed_B)).
  { repeat constructor; eexists; reflexivity. }
  exact (fetcher_inverted_range_is_empty Sample.web Sample.site "B" Sample.feed_B
           eq_refl ltac:(discriminate) Hd "20241231" "20240101" 20241231%Z 20240101%Z
           eq_refl eq_refl [] eq_refl).
Defined.

Lemma fetcher_two_sided_composes_witness :
  exists both after before,
    fst (get_boarddoc_meetings Sample.web Sample.site "B"
           (Some (PyStr "20240115", PyStr "20240301")) []) = Ok both /\
    fst (get_boarddoc_meetings Sample.web Sample.site "B"
           (Some (PyStr "20240115", PyNone)) []) = Ok after /\
    fst (get_boarddoc_meetings Sample.web Sample.site "B"
           (Some (PyNone, PyStr "20240301")) []) = Ok before /\
    rows both = filter (fun r => (date_int r <=? 20240301)%Z) (rows after) /\
    rows both = filter (fun r => (20240115 <=? date_int r)%Z) (rows before) /\
    (forall r, In r (rows both) <-> In r (rows after) /\ In r (rows before)).
Proof.
  assert (Hd : Forall dated (identified "B" Sample.feed_B)).
  { repeat constructor; eexists; reflexivity. }
  exact (fetcher_two_sided_composes Sample.web Sample.site "B" Sample.feed_B
           eq_refl ltac:(discriminate) Hd "20240115" "20240301" 20240115%Z 20240301%Z
           eq_refl eq_refl []).
Defined.

(** ** The extractor: header, items and files *)

Lemma agenda_of_soup_fields meeting_id soup a :
  agenda_of_soup meeting_id soup = Ok a ->
  exists nm dt,
    find_class "div" "print-meeting-name" soup = Some nm /\
    find_class "div" "print-meeting-date" soup = Some dt /\
    agenda_meeting_id a = meeting_id /\
    agenda_name a = string_of nm /\
    agenda_date a = string_of dt /\
    agenda_full_text a = get_text soup.
Proof.
  unfold agenda_of_soup. intros H.
  destruct (find_class "div" "print-meeting-name" soup) as [nm|]; [|discriminate].
  destruct (find_class "div" "print-meeting-date" soup) as [dt|]; [|discriminate].
  simpl in H.
  apply rbind_ok in H as (d & _ & H). apply rbind_ok in H as (items & _ & H).
  apply rbind_ok in H as (pub & _ & H). apply rbind_ok in H as (files & _ & H).
  inv H. simpl. eauto 10.
Qed.

(** X6.  The name and the date of the meeting.  If the page lacks the
    name element or the date element, the extractor raises [AttributeError],
    whatever else the page holds.  If it returns, both elements are there and
    the two fields are their [.string]: [None] when the element has no single
    string, never a plain [str]; the agenda carries the identifier it was
    asked for and the text of the whole page. *)
Theorem extractor_name_and_date :
  forall (meeting_id : pyval) (soup : list node),
    (find_class "div" "print-meeting-name" soup = None \/
     find_class "div" "print-meeting-date" soup = None ->
     agenda_of_soup meeting_id soup = Raise AttributeError)
    /\ (forall a,
          agenda_of_soup meeting_id soup = Ok a ->
          exists nm dt,
            find_class "div" "print-meeting-name" soup = Some nm /\
            find_class "div" "print-meeting-date" soup = Some dt /\
            agenda_name a = string_of nm /\ agenda_date a = string_of dt /\
            type_is_str (agenda_name a) = false /\ type_is_str (agenda_date a) = false /\
            agenda_meeting_id a = meeting_id /\
            agenda_full_text a = get_text soup).
Proof.
  intros meeting_id soup. split.
  - unfold agenda_of_soup.
    destruct (find_class "div" "print-meeting-name" soup) as [nm|]; simpl;
      [|reflexivity].
    intros [H|H]; [discriminate|]. rewrite H. reflexivity.
  - intros a H. apply agenda_of_soup_fields in H as (nm & dt & Hn & Hd & Hid & Hnm & Hdt & Ht).
    exists nm, dt. rewrite Hnm, Hdt, !string_of_not_str. auto 10.
Qed.

Lemma extractor_name_and_date_witness :
  agenda_of_soup (PyStr "2") [] = Raise AttributeError
  /\ exists nm dt,
       find_class "div" "print-meeting-name" Sample.page = Some nm /\
       find_class "div" "print-meeting-date" Sample.page = Some dt /\
       agenda_name (sample_agenda "1") = string_of nm /\
       agenda_date (sample_agenda "1") = string_of dt /\
       type_is_str (agenda_name (sample_agenda "1")) = false /\
       type_is_str (agenda_date (sample_agenda "1")) = false /\
       agenda_meeting_id (sample_agenda "1") = PyStr "1" /\
       agenda_full_text (sample_agenda "1") = get_text Sample.page.
Proof.
  split.
  - exact (proj1 (extractor_name_and_date (PyStr "2") []) (or_introl eq_refl)).
  - exact (proj2 (extractor_name_and_date (PyStr "1") Sample.page) _ eq_refl).
Defined.

(** X7.  The description of a returned agenda is always the empty string:
    [tag.string] is a [NavigableString] or [None], so the test
    [type(...) is str] never holds and the text of the description element is
    never kept. *)
Theorem description_is_always_empty :
  forall (meeting_id : pyval) (soup : list node) (a : agenda),
    agenda_of_soup meeting_id soup = Ok a ->
    agenda_description a = PyStr "".
Proof.
  intros meeting_id soup a H.
  apply agenda_of_soup_ok in H as (_ & _ & _ & _ & _ & Hdesc & _).
  apply description_never_kept in Hdesc. exact Hdesc.
Qed.

Lemma description_is_always_empty_witness :
  find_class "div" "print-meeting-description" Sample.page
  = Some (Tag "div" [("class", PyList ["print-meeting-description"])]
              [Text "Held in the board room"])
  /\ agenda_description (sample_agenda "1") = PyStr "".
Proof.
  split; [reflexivity|].
  exact (description_is_always_empty (PyStr "1") Sample.page (sample_agenda "1") eq_refl).
Defined.

(** Where the items of the scan come from. *)
Lemma items_loop_provenance divs items out :
  rfold item_step divs items = Ok out ->
  exists extra,
    out = items ++ extra /\
    List.length extra <= List.length divs /\
    forall s, In s extra ->
      exists div, In div divs /\
        ((level_one div /\ s = text_of (snd div)) \/
         (ordering_rule div /\ search_subject (text_of (snd div)) = Some s)).
Proof.
  revert items. induction divs as [|d divs IH]; intros items H; simpl in H.
  - inv H. exists []. rewrite app_nil_r. repeat split; [simpl; lia | intros s []].
  - apply rbind_ok in H as (mid & Hstep & H).
    apply IH in H as (extra & -> & Hlen & Hfrom).
    assert (Hrest : forall s, In s extra ->
              exists div, In div (d :: divs) /\
                ((level_one div /\ s = text_of (snd div)) \/
                 (ordering_rule div /\ search_subject (text_of (snd div)) = Some s))).
    { intros s Hs. destruct (Hfrom s Hs) as (div & Hin & Hd). exists div.
      split; [right; exact Hin | exact Hd]. }
    apply item_step_cases in Hstep
      as [(-> & _) | [(-> & Hl & _ & _) | (s & -> & Hr & Hs)]].
    + exists extra. repeat split; [simpl; lia | exact Hrest].
    + exists (text_of (snd d) :: extra). rewrite <- app_assoc.
      repeat split; [simpl; lia|].
      intros s [<-|Hs]; [|auto]. exists d. split; [left; reflexivity | left; auto].
    + exists (s :: extra). rewrite <- app_assoc.
      repeat split; [simpl; lia|].
      intros s' [<-|Hs']; [|auto]. exists d. split; [left; reflexivity|].
      right. split; [exact Hr|].
      destruct Hr as (Hlv & cls & Hc & Hin). unfold ordering_subject in Hs.
      rewrite Hlv, Hc, Hin in Hs.
      destruct (search_subject (text_of (snd d))); inv Hs. reflexivity.
Qed.

(** X8.  Where the items come from.  Every item of a returned agenda is
    the whole text of a [div] whose [aria-level] is ["1"], or the Subject line
    of a [div] of class ["agendaorder"] without [aria-level]; no other element
    adds an item, and there are at most as many items as [div] elements. *)
Theorem items_come_from_divs :
  forall (meeting_id : pyval) (soup : list node) (a : agenda),
    agenda_of_soup meeting_id soup = Ok a ->
    (forall s, In s (agenda_items a) ->
       exists div, In div (find_all "div" soup) /\
         ((level_one div /\ s = text_of (snd div)) \/
          (ordering_rule div /\ search_subject (text_of (snd div)) = Some s)))
    /\ List.length (agenda_items a) <= List.length (find_all "div" soup).
Proof.
  intros meeting_id soup a H.
  apply agenda_of_soup_ok in H as (_ & _ & _ & _ & _ & _ & Hitems & _).
  apply items_loop_provenance in Hitems as (extra & Hextra & Hlen & Hfrom).
  simpl in Hextra. subst extra. split; assumption.
Qed.

Lemma items_come_from_divs_witness :
  List.length ["1. Opening"; "Budget"; "Budget"] <= List.length (find_all "div" Sample.page).
Proof.
  exact (proj2 (items_come_from_divs (PyStr "1") Sample.page (sample_agenda "1") eq_refl)).
Defined.

(** *** Files in containers *)

Lemma public_file_step_ok files div out :
  public_file_step files div = Ok out ->
  (has_link div = false /\ out = files)
  \/ (has_link div = true /\ exists f, out = files ++ [f] /\ public_entry div f).
Proof.
  unfold public_file_step, has_link, public_entry.
  destruct (findChild_named "a" div) as [file|]; [|intros H; inv H; auto].
  destruct (has_attr file "href"); [|intros H; inv H; auto].
  intros H. apply rbind_ok in H as (parent & Hp & H).
  apply rbind_ok in H as (item & Hi & H). apply rbind_ok in H as (href & Hh & H). inv H.
  right. split; [reflexivity|].
  exists (item, PyStr (text_of file), href). split; [reflexivity|].
  exists file, parent. simpl.
  destruct (find_parent "div" "agendaorder" div); inv Hp.
  unfold subject_of in Hi. destruct (search_subject (text_of parent)); inv Hi.
  unfold get_attr in Hh. destruct (lookup "href" (attrs_of file)); inv Hh.
  auto.
Qed.

Lemma public_loop_ok divs files out :
  rfold public_file_step divs files = Ok out ->
  exists public, out = files ++ public /\
                 Forall2 public_entry (filter has_link divs) public.
Proof.
  revert files. induction divs as [|d divs IH]; intros files H; simpl in H.
  - inv H. exists []. rewrite app_nil_r. split; [reflexivity | constructor].
  - apply rbind_ok in H as (mid & Hstep & H).
    apply IH in H as (public & -> & Hp). simpl.
    apply public_file_step_ok in Hstep as [(Hl & ->) | (Hl & f & -> & Hf)]; rewrite Hl.
    + eauto.
    + exists (f :: public). rewrite <- app_assoc. split; [reflexivity|].
      constructor; assumption.
Qed.

(** X9.  The files of a returned agenda.  They are, in this order, one
    entry per ["public-file"] container whose first hyperlink has a target
    (label of the enclosing item, text of the hyperlink, target), then one
    entry per hyperlink to legacy content; a container without hyperlink, or
    whose first hyperlink has no [href], is passed over without error.
    Nothing is merged: the number of files is the sum of the two counts. *)
Theorem agenda_files_are_two_passes :
  forall (meeting_id : pyval) (soup : list node) (a : agenda),
    agenda_of_soup meeting_id soup = Ok a ->
    exists public legacy,
      agenda_files a = public ++ legacy /\
      Forall2 public_entry
              (filter has_link (find_all_class "div" "public-file" soup)) public /\
      Forall2 legacy_entry (find_all_href "legacy-content" soup) legacy /\
      List.length (agenda_files a)
      = List.length (filter has_link (find_all_class "div" "public-file" soup))
        + List.length (find_all_href "legacy-content" soup).
Proof.
  intros meeting_id soup a H.
  apply agenda_of_soup_ok in H as (_ & _ & pub & _ & _ & _ & _ & Hpub & Hfiles).
  apply public_loop_ok in Hpub as (public & Hpub & Hp). simpl in Hpub. subst pub.
  apply legacy_loop_ok in Hfiles as (legacy & -> & Hl).
  exists public, legacy. repeat split; auto.
  rewrite length_app, (Forall2_length Hp), (Forall2_length Hl). reflexivity.
Qed.

Lemma agenda_files_are_two_passes_witness :
  (exists public legacy,
     agenda_files (sample_agenda "1") = public ++ legacy /\
     Forall2 public_entry
             (filter has_link (find_all_class "div" "public-file" Sample.page)) public /\
     Forall2 legacy_entry (find_all_href "legacy-content" Sample.page) legacy /\
     List.length (agenda_files (sample_agenda "1"))
     = List.length (filter has_link (find_all_class "div" "public-file" Sample.page))
       + List.length (find_all_href "legacy-content" Sample.page))
  /\ option_map agenda_files
       (match agenda_of_soup PyNone page_unlinked_files with
        | Ok a => Some a | Raise _ => None end) = Some [].
Proof.
  split; [|reflexivity].
  exact (agenda_files_are_two_passes (PyStr "1") Sample.page (sample_agenda "1") eq_refl).
Defined.

(** X10.  A file outside a labelled item.  If a container with a linked
    file, or a hyperlink to legacy content, has no enclosing [div] of class
    ["agendaorder"], or the text of the nearest one has no Subject line, the
    extractor returns no agenda: the step at that element raises
    [AttributeError] in the first case and [TypeError] in the second. *)
Theorem file_outside_item_raises :
  forall (meeting_id : pyval) (soup : list node) (el : located),
    In el (find_all_href "legacy-content" soup) \/
    (In el (find_all_class "div" "public-file" soup) /\ has_link el = true) ->
    (find_parent "div" "agendaorder" el = None \/
     exists parent, find_parent "div" "agendaorder" el = Some parent /\
                    search_subject (text_of parent) = None) ->
    (exists e, agenda_of_soup meeting_id soup = Raise e)
    /\ (find_parent "div" "agendaorder" el = None ->
        forall files, legacy_step files el = Raise AttributeError /\
                      (has_link el = true ->
                       public_file_step files el = Raise AttributeError))
    /\ (forall parent,
          find_parent "div" "agendaorder" el = Some parent ->
          search_subject (text_of parent) = None ->
          forall files, legacy_step files el = Raise TypeError /\
                        (has_link el = true ->
                         public_file_step files el = Raise TypeError)).
Proof.
  intros meeting_id soup el Hel Hbad.
  assert (Hlegacy : forall files out, legacy_step files el <> Ok out).
  { intros files out H.
    apply legacy_step_ok in H as (f & _ & parent & child & Hp & Hs & _).
    destruct Hbad as [Hn|(p & Hp' & Hs')]; congruence. }
  assert (Hpublic : has_link el = true ->
                    forall files out, public_file_step files el <> Ok out).
  { intros Hl files out H.
    apply public_file_step_ok in H as [(Hl' & _) | (_ & f & _ & file & parent & _ & Hp & Hs & _)];
      [congruence|].
    destruct Hbad as [Hn|(p & Hp' & Hs')]; congruence. }
  split; [|split].
  - destruct (agenda_of_soup meeting_id soup) as [a|e] eqn:E; [|eauto].
    apply agenda_of_soup_ok in E as (_ & _ & pub & _ & _ & _ & _ & Hpub & Hfiles).
    destruct Hel as [Hin|[Hin Hl]].
    + destruct (rfold_ok_each _ _ _ _ el Hfiles Hin) as (acc & out & H).
      destruct (Hlegacy _ _ H).
    + destruct (rfold_ok_each _ _ _ _ el Hpub Hin) as (acc & out & H).
      destruct (Hpublic Hl _ _ H).
  - intros Hn files. unfold legacy_step, public_file_step, has_link.
    rewrite Hn. split; [reflexivity|].
    destruct (findChild_named "a" el) as [file|]; [|discriminate].
    intros ->. reflexivity.
  - intros parent Hp Hs files. unfold legacy_step, public_file_step, has_link, subject_of.
    rewrite Hp. simpl. rewrite Hs. split; [reflexivity|].
    destruct (findChild_named "a" el) as [file|]; [|discriminate].
    intros ->. reflexivity.
Qed.

Lemma file_outside_item_raises_witness :
  agenda_of_soup PyNone page_stray_link = Raise AttributeError
  /\ agenda_of_soup PyNone page_unlabelled_item = Raise TypeError
  /\ (exists e, agenda_of_soup PyNone page_stray_link = Raise e)
  /\ (exists e, agenda_of_soup PyNone page_unlabelled_item = Raise e).
Proof.
  split; [reflexivity|]. split; [reflexivity|]. split.
  - refine (proj1 (file_outside_item_raises PyNone page_stray_link
                     (hd ([], Text "") (find_all_href "legacy-content" page_stray_link))
                     _ _)).
    + left. left. reflexivity.
    + left. reflexivity.
  - refine (proj1 (file_outside_item_raises PyNone page_unlabelled_item
                     (hd ([], Text "")
                         (find_all_class "div" "public-file" page_unlabelled_item))
                     _ _)).
    + right. split; [left; reflexivity | reflexivity].
    + right. eexists. split; reflexivity.
Defined.

(** ** Items and the full text *)

Lemma walk_ancestors : forall (n : node) (anc : list node) (t : located),
  In t (walk anc n) -> t = (anc, n) \/ exists pre, fst t = pre ++ n :: anc.
Proof.
  fix IH 1. intros [s|nm ats cs] anc t H; [destruct H|].
  simpl in H. destruct H as [<-|H]; [left; reflexivity|]. right.
  revert H. generalize (Tag nm ats cs). intros n.
  induction cs as [|c cs IHcs]; intros H; [destruct H|].
  simpl in H. apply in_app_or in H as [H|H]; [|apply IHcs, H].
  apply IH in H as [->|(pre & ->)].
  - exists []. reflexivity.
  - exists (pre ++ [c]). rewrite <- app_assoc. reflexivity.
Qed.

Lemma existsb_app_false {A} (p : A -> bool) l1 x l2 :
  existsb p (l1 ++ x :: l2) = false -> p x = false.
Proof.
  rewrite existsb_app. simpl. intros H.
  apply orb_false_elim in H as [_ H]. apply orb_false_elim in H as [H _]. exact H.
Qed.

(** The text of a tag that lies in no container, and is none, occurs in
    the text of the tree. *)
Lemma walk_text : forall (n : node) (anc : list node) (t : located),
  In t (walk anc n) ->
  string_container (snd t) = false ->
  existsb string_container (fst t) = false ->
  within (text_of (snd t)) (text_of n).
Proof.
  fix IH 1. intros [s|nm ats cs] anc t H Ht Hanc; [destruct H|].
  simpl in H. destruct H as [<-|H]; [apply within_refl|].
  simpl text_of. revert H. generalize (Tag nm ats cs :: anc). intros anc'.
  induction cs as [|c cs IHcs]; intros H; [destruct H|].
  simpl in H. rewrite map_cons, concat_empty_cons.
  apply in_app_or in H as [H|H]; [|apply within_append_r, IHcs, H].
  apply within_append_l.
  assert (Hc : string_container c = false).
  { destruct (walk_ancestors _ _ _ H) as [->|(pre & Hpre)]; [exact Ht|].
    rewrite Hpre in Hanc. eapply existsb_app_false, Hanc. }
  rewrite Hc. eapply IH; eassumption.
Qed.

Lemma soup_tags_text soup t :
  In t (soup_tags soup) ->
  string_container (snd t) = false ->
  existsb string_container (fst t) = false ->
  within (text_of (snd t)) (get_text soup).
Proof.
  unfold soup_tags, get_text. intros H Ht Hanc.
  induction soup as [|n soup IH]; [destruct H|].
  simpl in H. rewrite map_cons, concat_empty_cons.
  apply in_app_or in H as [H|H]; [|apply within_append_r, IH, H].
  apply within_append_l.
  assert (Hn : string_container n = false).
  { destruct (walk_ancestors _ _ _ H) as [->|(pre & Hpre)]; [exact Ht|].
    rewrite Hpre in Hanc. eapply existsb_app_false, Hanc. }
  rewrite Hn. eapply walk_text; eassumption.
Qed.

Lemma subject_line_within text l : subject_line text l -> within l text.
Proof.
  intros (pre & post & -> & _). exists (pre ++ Subject_label)%string, post.
  rewrite append_assoc3. reflexivity.
Qed.

Lemma div_is_no_container n : is_tag "div" n = true -> string_container n = false.
Proof.
  destruct n as [s|nm ats cs]; [reflexivity|]. unfold is_tag. simpl tag_name.
  intros H. apply String.eqb_eq in H. subst nm. reflexivity.
Qed.

(** X11.  On a page where no [div] lies inside a [script], [style],
    [template], [rt] or [rp] element, every item of a returned agenda occurs
    in its full text: a search of the full text for an item always finds
    it. *)
Theorem items_occur_in_full_text :
  forall (meeting_id : pyval) (soup : list node) (a : agenda),
    forallb outside_containers (find_all "div" soup) = true ->
    agenda_of_soup meeting_id soup = Ok a ->
    forall s, In s (agenda_items a) -> contains s (agenda_full_text a) = true.
Proof.
  intros meeting_id soup a Hout H s Hs.
  destruct (agenda_of_soup_fields _ _ _ H) as (_ & _ & _ & _ & _ & _ & _ & ->).
  apply agenda_of_soup_ok in H as (_ & _ & _ & _ & _ & _ & Hitems & _).
  apply items_loop_provenance in Hitems as (extra & Hextra & _ & Hfrom).
  simpl in Hextra. subst extra.
  destruct (Hfrom s Hs) as (div & Hin & Hdiv).
  rewrite forallb_forall in Hout. specialize (Hout div Hin).
  unfold outside_containers in Hout. apply negb_true_iff in Hout.
  apply filter_In in Hin as [Hin Hname].
  apply (soup_tags_text _ _ Hin (div_is_no_container _ Hname)) in Hout.
  apply within_contains. apply (within_trans _ (text_of (snd div))); [|exact Hout].
  destruct Hdiv as [(_ & ->) | (_ & Hsub)]; [apply within_refl|].
  apply subject_line_within, search_subject_sound, Hsub.
Qed.

Lemma items_occur_in_full_text_witness :
  contains "Budget" (agenda_full_text (sample_agenda "1")) = true.
Proof.
  refine (items_occur_in_full_text (PyStr "1") Sample.page (sample_agenda "1")
            eq_refl eq_refl "Budget" _).
  right. left. reflexivity.
Defined.

(** ** The Subject line *)

Lemma line_of_nonempty c rest : c <> newline -> line_of (String c rest) <> "".
Proof.
  intros Hc. simpl. destruct (Ascii.eqb_spec c newline); [contradiction | discriminate].
Qed.

Lemma search_subject_complete text :
  has_subject_line text -> exists l, search_subject text = Some l.
Proof.
  intros (pre & c & rest & -> & Hc). induction pre as [|p pre IH].
  - cbn [append]. change (Subject_label ++ String c rest)%string
      with (String "S" (String "u" (String "b" (String "j" (String "e" (String "c"
             (String "t" (String newline (String c rest)))))))))%string.
    cbn [search_subject prefix Subject_label append drop].
    pose proof (line_of_nonempty c rest Hc) as Hl.
    repeat (match goal with |- context [ascii_dec ?x ?y] =>
              destruct (ascii_dec x y); [|congruence] end).
    destruct (line_of (String c rest)); [congruence | eauto].
  - destruct IH as (l & Hl). cbn [append search_subject].
    destruct (prefix Subject_label (String p (pre ++ Subject_label ++ String c rest)));
      [|eauto].
    destruct (line_of (drop 8 (String p (pre ++ Subject_label ++ String c rest))));
      eauto.
Qed.

(** X12.  When the label of an item is found.  The search for the Subject
    line returns a line exactly when the text holds the label ["Subject"], a
    line feed and then a character that is not a line feed; what it returns is
    never empty and never spans a line feed.  Otherwise reading the label
    raises [TypeError], which ends the extraction. *)
Theorem subject_found_iff_line :
  forall text : string,
    ((exists l, search_subject text = Some l) <-> has_subject_line text)
    /\ (subject_of text = Raise TypeError <-> ~ has_subject_line text)
    /\ (forall l, search_subject text = Some l ->
          subject_of text = Ok l /\ l <> "" /\
          (forall a b, l <> (a ++ String newline b)%string) /\ within l text).
Proof.
  intros text.
  assert (Hiff : (exists l, search_subject text = Some l) <-> has_subject_line text).
  { split; [|apply search_subject_complete].
    intros (l & Hl). apply search_subject_sound in Hl
      as (pre & post & -> & Hne & Hline & _).
    destruct l as [|c l]; [congruence|].
    exists pre, c, (l ++ post)%string. split; [reflexivity|].
    intros ->. apply (Hline "" l). reflexivity. }
  split; [exact Hiff|]. split.
  - unfold subject_of. destruct (search_subject text) as [l|] eqn:E.
    + split; [discriminate|]. intros Hn. exfalso. apply Hn, Hiff. eauto.
    + split; [|reflexivity]. intros _ Hh. apply Hiff in Hh as (l & Hl). discriminate.
  - intros l Hl. unfold subject_of. rewrite Hl. split; [reflexivity|].
    pose proof (search_subject_sound _ _ Hl) as Hs.
    pose proof (subject_line_within _ _ Hs) as Hw.
    destruct Hs as (pre & post & _ & Hne & Hline & _). auto.
Qed.

Lemma subject_found_iff_line_witness :
  subject_of (Sample.line "Subject" ++ Sample.line "Budget" ++ Sample.line "Type") = Ok "Budget"
  /\ "Budget" <> ""
  /\ (forall a b, "Budget" <> (a ++ String newline b)%string)
  /\ within "Budget" (Sample.line "Subject" ++ Sample.line "Budget" ++ Sample.line "Type").
Proof.
  exact (proj2 (proj2 (subject_found_iff_line
                         (Sample.line "Subject" ++ Sample.line "Budget" ++ Sample.line "Type")))
               "Budget" eq_refl).
Defined.

(** ** The minutes *)

Lemma unmarked_app l1 l2 : unmarked (l1 ++ l2) = unmarked l1 ++ unmarked l2.
Proof. unfold unmarked. rewrite filter_app, map_app. reflexivity. Qed.

(** Below a container every string is marked. *)
Lemma marked_hidden : forall n : node, unmarked (marked_strings true n) = [].
Proof.
  fix IH 1. intros [s|nm ats cs]; [reflexivity|].
  simpl. induction cs as [|c cs IHcs]; [reflexivity|].
  simpl. rewrite unmarked_app, IH, IHcs. reflexivity.
Qed.

Lemma marked_hidden_list cs : unmarked (flat_map (marked_strings true) cs) = [].
Proof.
  induction cs as [|c cs IH]; [reflexivity|].
  simpl. rewrite unmarked_app, marked_hidden, IH. reflexivity.
Qed.

Lemma marked_container n :
  string_container n = true -> unmarked (marked_strings false n) = [].
Proof.
  destruct n as [s|nm ats cs]; [discriminate|]. intros H.
  cbn [marked_strings]. rewrite H. apply marked_hidden_list.
Qed.

Lemma text_of_plain : forall n : node,
  string_container n = false ->
  text_of n = String.concat "" (unmarked (marked_strings false n)).
Proof.
  fix IH 1. intros [s|nm ats cs] Hn; [reflexivity|].
  cbn [marked_strings text_of]. rewrite Hn. simpl orb. clear Hn.
  induction cs as [|c cs IHcs]; [reflexivity|].
  rewrite map_cons, concat_empty_cons. simpl flat_map.
  rewrite unmarked_app, concat_empty_app, IHcs.
  destruct (string_container c) eqn:Hc.
  - rewrite (marked_container c Hc). reflexivity.
  - rewrite <- (IH c Hc). reflexivity.
Qed.

Lemma get_text_plain soup : get_text soup = String.concat "" (plain_strings soup).
Proof.
  unfold get_text, plain_strings. induction soup as [|n soup IH]; [reflexivity|].
  rewrite map_cons, concat_empty_cons. simpl flat_map.
  rewrite unmarked_app, concat_empty_app, IH.
  destruct (string_container n) eqn:Hn.
  - rewrite (marked_container n Hn). reflexivity.
  - rewrite <- (text_of_plain n Hn). reflexivity.
Qed.

Lemma append_empty_inv (a b : string) : (a ++ b)%string = "" -> a = "" /\ b = "".
Proof. destruct a; simpl; [auto | discriminate]. Qed.

Lemma concat_empty_iff l : String.concat "" l = "" <-> Forall (fun s => s = "") l.
Proof.
  induction l as [|x l IH]; [split; constructor|].
  rewrite concat_empty_cons. split.
  - intros H. apply append_empty_inv in H as [-> H]. constructor; [reflexivity|].
    apply IH, H.
  - intros H. inv H. apply IH in H3. rewrite H3. reflexivity.
Qed.

(** X13.  The minutes fetcher.  For string identifiers it makes exactly
    one request, to the minutes URL, with the form body of the agenda request
    of the same meeting.  If the site does not answer it raises; if it
    answers, the fetcher returns whatever the page holds and cannot fail on
    its content: the strings of the page that lie in no [script], [style],
    [template], [rt] or [rp] element, concatenated in document order, without
    markup.  The result is the empty string exactly when every such string is
    empty, so a page without minutes, a page with empty minutes and a page
    that holds only a script give the same answer. *)
Theorem minutes_are_the_page_text :
  forall (web : remote) (site c m : string) (log : list request),
    let data := ("id=" ++ m ++ "&" ++ "current_committee_id=" ++ c)%string in
    let run := get_boarddoc_minutes_embed web site (PyStr c) (PyStr m) log in
    snd run = log ++ [(minutes_url site, data)]
    /\ agenda_data (PyStr c) (PyStr m) = Ok data
    /\ (agenda_page web (minutes_url site) data = None ->
        fst run = Raise RequestException)
    /\ (forall soup,
          agenda_page web (minutes_url site) data = Some soup ->
          fst run = Ok (get_text soup)
          /\ get_text soup = String.concat "" (plain_strings soup)
          /\ (get_text soup = "" <-> Forall (fun s => s = "") (plain_strings soup))).
Proof.
  intros web site c m log data run. subst run.
  assert (Hdata : agenda_data (PyStr c) (PyStr m) = Ok data).
  { unfold agenda_data, str_add, data. simpl. rewrite !append_assoc3. reflexivity. }
  unfold get_boarddoc_minutes_embed, bind, lift, post_html. rewrite Hdata. simpl.
  destruct (agenda_page web (minutes_url site) data) as [soup|]; simpl.
  - split; [reflexivity|]. split; [reflexivity|]. split; [discriminate|].
    intros soup' E. inv E. split; [reflexivity|]. split; [apply get_text_plain|].
    rewrite get_text_plain. apply concat_empty_iff.
  - split; [reflexivity|]. split; [reflexivity|]. split; [reflexivity | discriminate].
Qed.

Lemma minutes_are_the_page_text_witness :
  fst (get_boarddoc_minutes_embed minutes_web Sample.site (PyStr "A") (PyStr "1") [])
  = Ok "Approved 5-0"
  /\ plain_strings minutes_page = ["Approved "; "5-0"]
  /\ fst (get_boarddoc_minutes_embed minutes_web Sample.site (PyStr "A") (PyStr "2") [])
     = Ok "".
Proof.
  split; [|split; [reflexivity|]].
  - exact (proj1 (proj2 (proj2 (proj2
             (minutes_are_the_page_text minutes_web Sample.site "A" "1" []))) _ eq_refl)).
  - exact (proj1 (proj2 (proj2 (proj2
             (minutes_are_the_page_text minutes_web Sample.site "A" "2" []))) _ eq_refl)).
Defined.

(** ** The orchestrator: what a run that returns has done *)

Lemma fetched_rows_projected web site date c out :
  fetched web site date c = Ok out ->
  Forall (fun r => committee_id (snd r) = PyStr c /\ meeting_id (snd r) <> PyNone)
         (rows out).
Proof.
  intros Hout. destruct (fetched_ok_feed _ _ _ _ _ Hout) as (feed & Hfeed & Hne).
  rewrite (fetched_reply _ _ _ _ feed Hfeed Hne) in Hout.
  apply Forall_forall. intros [i r] Hr.
  apply (filter_by_date_incl _ _ _ _ Hout) in Hr. simpl in Hr.
  apply filter_In in Hr as [Hin Hid]. apply in_enumerate in Hin.
  rewrite nth_error_map in Hin. destruct (nth_error feed i) as [j|]; inv Hin.
  simpl in *. split; [reflexivity|]. intros E. rewrite E in Hid. discriminate.
Qed.

Lemma agenda_for_meeting_id web site r a :
  agenda_for web site r = Ok a -> agenda_meeting_id a = meeting_id r.
Proof.
  unfold agenda_for, process_boarddoc_meeting, bind, lift, post_html.
  destruct (agenda_data (committee_id r) (meeting_id r)) as [d|e]; simpl; [|discriminate].
  destruct (agenda_page web (agenda_url site) d) as [soup|]; simpl; [|discriminate].
  intros H. apply agenda_of_soup_fields in H as (_ & _ & _ & _ & H & _). exact H.
Qed.

Lemma map_enumerate_snd {A B} (g : A -> B) (l : list A) :
  map (fun r => g (snd r)) (enumerate l) = map g l.
Proof. rewrite <- (map_map snd g), map_snd_enumerate. reflexivity. Qed.

Lemma ForallOrdPairs_unmap {A B} (f : A -> B) (R : B -> B -> Prop) l :
  ForallOrdPairs R (map f l) -> ForallOrdPairs (fun x y => R (f x) (f y)) l.
Proof.
  induction l as [|x l IH]; intros H; [constructor|].
  simpl in H. inv H. constructor; [|apply IH; assumption].
  rewrite Forall_map in H2. exact H2.
Qed.

Section Runs.

Variable web : remote.
Variable site : string.
Variable date : option (pyval * pyval).

Lemma concat_loop_inv cs acc log df log' :
  for_each (fun meetings c =>
              bind (get_boarddoc_meetings web site c date)
                   (fun m => ret (pd_concat meetings m)))
           cs acc log = (Ok df, log') ->
  exists frames, Forall2 (fun c f => fetched web site date c = Ok f) cs frames.
Proof.
  revert acc log. induction cs as [|c cs IH]; intros acc log H; [exists []; constructor|].
  simpl in H. unfold bind at 1 2 in H. rewrite get_boarddoc_meetings_run in H.
  destruct (fetched web site date c) as [f|e] eqn:Ef; simpl in H; [|discriminate].
  apply IH in H as (frames & Hf). exists (f :: frames). constructor; assumption.
Qed.

Lemma fetch_all_inv cs log df log' :
  fetch_all web site cs date log = (Ok (Some df), log') ->
  cs <> [] /\
  exists frames, Forall2 (fun c f => fetched web site date c = Ok f) cs frames.
Proof.
  destruct cs as [|c [|c' cs]].
  - discriminate.
  - simpl. unfold bind. rewrite get_boarddoc_meetings_run.
    destruct (fetched web site date c) as [f|e] eqn:Ef; simpl; [|discriminate].
    intros _. split; [discriminate|]. exists [f]. repeat constructor. exact Ef.
  - unfold fetch_all, bind at 1. intros H. split; [discriminate|].
    match type of H with
    | context [for_each ?b ?l ?a log] => destruct (for_each b l a log) as [[m|e] lg] eqn:E
    end; [|discriminate].
    eapply concat_loop_inv, E.
Qed.

Lemma agenda_loop_inv (l : list row) idxs rs acc log out log' :
  Forall2 (fun i r => nth_error l i = Some r) idxs rs ->
  for_each (agenda_step web site (mk_frame meeting_columns (enumerate l))) idxs acc log
  = (Ok out, log') ->
  exists ags, Forall2 (fun r a => agenda_for web site r = Ok a) rs ags.
Proof.
  intros Hi. revert acc log.
  induction Hi as [|i r idxs rs Hir _ IH]; intros acc log H; [exists []; constructor|].
  simpl in H. unfold bind in H. rewrite (agenda_step_run web site l acc i r log Hir) in H.
  destruct (agenda_for web site r) as [a|e] eqn:Ea; [|discriminate].
  apply IH in H as (ags & Ha). exists (a :: ags). constructor; assumption.
Qed.

(** The run of the orchestrator on a list of committees whose fetches and
    extractions return. *)
Lemma district_run cs frames agendas log :
  cs <> [] ->
  Forall2 (fun c df => fetched web site date c = Ok df) cs frames ->
  Forall2 (fun r a => agenda_for web site r = Ok a)
          (map snd (keep_first [] (flat_map rows frames))) agendas ->
  process_boarddoc_district web site cs date log
  = (Ok (mk_frame meeting_columns
           (enumerate (map snd (keep_first [] (flat_map rows frames)))), agendas),
     log ++ map (meetings_request site) cs
         ++ map (agenda_request site) (map snd (keep_first [] (flat_map rows frames)))).
Proof.
  intros Hne Hf Ha.
  rewrite (district_prefix web site date cs frames log Hne Hf). cbv zeta. unfold bind.
  rewrite (agenda_loop_ok web site _ _ _ agendas [] _ (nth_error_seq _) Ha).
  simpl. rewrite <- app_assoc. reflexivity.
Qed.

(** A run that returns is such a run. *)
Lemma district_returns_inv cs log df agendas log' :
  process_boarddoc_district web site cs date log = (Ok (df, agendas), log') ->
  cs <> [] /\
  exists frames,
    Forall2 (fun c f => fetched web site date c = Ok f) cs frames /\
    Forall2 (fun r a => agenda_for web site r = Ok a)
            (map snd (keep_first [] (flat_map rows frames))) agendas /\
    df = mk_frame meeting_columns
           (enumerate (map snd (keep_first [] (flat_map rows frames)))) /\
    log' = log ++ map (meetings_request site) cs
               ++ map (agenda_request site)
                      (map snd (keep_first [] (flat_map rows frames))).
Proof.
  intros H.
  assert (Hfetch : cs <> [] /\ exists frames,
             Forall2 (fun c f => fetched web site date c = Ok f) cs frames).
  { unfold process_boarddoc_district, bind at 1 in H.
    destruct (fetch_all web site cs date log) as [[[m|]|e] lg] eqn:E;
      [eapply fetch_all_inv, E | discriminate | discriminate]. }
  destruct Hfetch as (Hne & frames & Hf). split; [exact Hne|]. exists frames.
  split; [exact Hf|].
  pose proof H as H'.
  rewrite (district_prefix web site date cs frames log Hne Hf) in H'. cbv zeta in H'.
  unfold bind in H'.
  match type of H' with
  | context [for_each ?b ?l ?a ?lg] => destruct (for_each b l a lg) as [[ags|e] lg'] eqn:E
  end; [|discriminate].
  apply (agenda_loop_inv _ _ _ _ _ _ _ (nth_error_seq _)) in E as (ags' & Ha).
  rewrite (district_run cs frames ags' log Hne Hf Ha) in H. inv H. auto.
Qed.

End Runs.

(** X14.  What a returned district holds.  Whenever the orchestrator
    returns a frame and agendas: the frame has the four columns and the labels
    0, 1, 2, ...; there is one agenda per row and the agenda at a position
    carries the meeting identifier of the row at that position; no two rows
    have the same identifier, no identifier is [None], and the committee of
    every row is one of the committees asked for; and the run has made one
    request per committee and one per row. *)
Theorem district_result_is_aligned :
  forall (web : remote) (site : string) (date : option (pyval * pyval))
         (cs : list string) (log log' : list request)
         (df : DataFrame) (agendas : list agenda),
    process_boarddoc_district web site cs date log = (Ok (df, agendas), log') ->
    columns df = meeting_columns
    /\ map fst (rows df) = seq 0 (List.length (rows df))
    /\ map agenda_meeting_id agendas = map (fun r => meeting_id (snd r)) (rows df)
    /\ ForallOrdPairs
         (fun r1 r2 => py_eqb (meeting_id (snd r1)) (meeting_id (snd r2)) = false)
         (rows df)
    /\ Forall (fun r => meeting_id (snd r) <> PyNone /\
                        exists c, In c cs /\ committee_id (snd r) = PyStr c)
              (rows df)
    /\ List.length log' = List.length log + List.length cs + List.length (rows df).
Proof.
  intros web site date cs log log' df agendas H.
  apply district_returns_inv in H as (Hne & frames & Hf & Ha & -> & ->).
  set (kept := keep_first [] (flat_map rows frames)) in *. simpl.
  split; [reflexivity|].
  split; [unfold enumerate; rewrite combine_map_fst_seq, enumerate_from_length; reflexivity|].
  split; [|split; [|split]].
  - rewrite (map_enumerate_snd meeting_id).
    clear -Ha. induction Ha as [|r a rs ags Hra _ IH]; simpl; [reflexivity|].
    rewrite IH. f_equal. eapply agenda_for_meeting_id, Hra.
  - apply (ForallOrdPairs_unmap snd
             (fun r1 r2 : row => py_eqb (meeting_id r1) (meeting_id r2) = false)).
    rewrite map_snd_enumerate. apply ForallOrdPairs_map, keep_first_distinct.
  - apply Forall_forall. intros [i r] Hin. apply in_enumerate in Hin.
    apply nth_error_In in Hin. apply in_map_iff in Hin as ([i' r'] & <- & Hin).
    simpl. apply (subsequence_In _ _ _ (keep_first_subsequence [] _)) in Hin.
    apply in_flat_map in Hin as (f & Hfin & Hin).
    clear -Hf Hfin Hin. induction Hf as [|c f' cs frames Hc _ IH]; [destruct Hfin|].
    destruct Hfin as [->|Hfin].
    + apply fetched_rows_projected in Hc. rewrite Forall_forall in Hc.
      destruct (Hc _ Hin) as [Hcom Hid]. split; [exact Hid|].
      exists c. split; [left; reflexivity | exact Hcom].
    + destruct (IH Hfin) as (Hid & c' & Hc' & Hcom). split; [exact Hid|].
      exists c'. split; [right; exact Hc' | exact Hcom].
  - rewrite !length_app, !length_map, length_enumerate, length_map. lia.
Qed.

Lemma district_result_is_aligned_witness :
  map agenda_meeting_id [sample_agenda "1"]
  = map (fun r => meeting_id (snd r)) [sample_row 0 "1" "A" "20240101"].
Proof.
  exact (proj1 (proj2 (proj2
           (district_result_is_aligned Sample.web Sample.site
              (Some (PyStr "20240101", PyStr "20240101")) ["A"; "B"] [] _
              (mk_frame meeting_columns [sample_row 0 "1" "A" "20240101"])
              [sample_agenda "1"] eq_refl)))).
Defined.

(** ** The orchestrator: a fetch that fails, a committee listed twice *)

Section Fetches.

Variable web : remote.
Variable site : string.
Variable date : option (pyval * pyval).

Lemma fetch_all_loop cs log :
  2 <= List.length cs ->
  fetch_all web site cs date log
  = bind (for_each (fun meetings c =>
                      bind (get_boarddoc_meetings web site c date)
                           (fun m => ret (pd_concat meetings m)))
                   cs empty_frame)
         (fun m => ret (Some m)) log.
Proof. destruct cs as [|a [|b cs]]; simpl; intros H; [lia | lia | reflexivity]. Qed.

Lemma fetch_all_raise pre frames c post e log :
  Forall2 (fun c' f => fetched web site date c' = Ok f) pre frames ->
  fetched web site date c = Raise e ->
  fetch_all web site (pre ++ c :: post) date log
  = (Raise e, log ++ map (meetings_request site) (pre ++ [c])).
Proof.
  intros Hpre He.
  destruct (le_lt_dec 2 (List.length (pre ++ c :: post))) as [Hlen|Hlen].
  - rewrite fetch_all_loop by exact Hlen. unfold bind at 1.
    rewrite for_each_app. unfold bind at 1.
    rewrite (concat_loop_run web site date pre frames empty_frame log eq_refl Hpre).
    simpl. unfold bind at 1 2. rewrite get_boarddoc_meetings_run, He. simpl.
    rewrite map_app, <- app_assoc. reflexivity.
  - rewrite length_app in Hlen. simpl in Hlen.
    destruct pre as [|p pre]; [|simpl in Hlen; lia].
    destruct post as [|q post]; [|simpl in Hlen; lia].
    simpl. unfold bind. rewrite get_boarddoc_meetings_run, He. reflexivity.
Qed.

(** X15.  A fetch that fails.  If the fetcher raises [e] for a committee
    after having returned for the committees before it, the orchestrator
    raises [e]; it has made the meeting-list requests up to that committee and
    no other request: later committees are not asked, and no agenda is
    requested for the meetings already listed. *)
Theorem district_fetch_fail_fast :
  forall (pre : list string) (frames : list DataFrame) (c : string)
         (post : list string) (e : exn) (log : list request),
    Forall2 (fun c' f => fetched web site date c' = Ok f) pre frames ->
    fetched web site date c = Raise e ->
    process_boarddoc_district web site (pre ++ c :: post) date log
    = (Raise e, log ++ map (meetings_request site) (pre ++ [c])).
Proof.
  intros pre frames c post e log Hpre He.
  unfold process_boarddoc_district, bind at 1.
  rewrite (fetch_all_raise pre frames c post e log Hpre He). reflexivity.
Qed.

End Fetches.

Lemma district_fetch_fail_fast_witness :
  process_boarddoc_district Sample.web Sample.site ["A"; "empty"; "B"] None []
  = (Raise KeyError,
     [meetings_request Sample.site "A"; meetings_request Sample.site "empty"]).
Proof.
  assert (Hf : Forall2 (fun c f => fetched Sample.web Sample.site None c = Ok f) ["A"]
                 [mk_frame meeting_columns [sample_row 0 "1" "A" "20240101"]]).
  { repeat constructor. }
  exact (district_fetch_fail_fast Sample.web Sample.site None ["A"] _ "empty" ["B"]
           KeyError [] Hf eq_refl).
Defined.

(** *** Rows that repeat earlier rows *)

Lemma keep_first_app seen l1 l2 :
  keep_first seen (l1 ++ l2) = keep_first seen l1 ++ keep_first (seen_after seen l1) l2.
Proof.
  revert seen. induction l1 as [|r l1 IH]; intros seen; simpl; [reflexivity|].
  destruct (existsb (py_eqb (meeting_id (snd r))) seen); simpl; rewrite IH; reflexivity.
Qed.

Lemma seen_after_mono seen l v :
  existsb (py_eqb v) seen = true -> existsb (py_eqb v) (seen_after seen l) = true.
Proof.
  revert seen. induction l as [|r l IH]; intros seen H; simpl; [exact H|].
  destruct (existsb (py_eqb (meeting_id (snd r))) seen); apply IH; [exact H|].
  simpl. rewrite H. apply orb_true_r.
Qed.

Lemma seen_after_in seen l r :
  In r l -> existsb (py_eqb (meeting_id (snd r))) (seen_after seen l) = true.
Proof.
  revert seen. induction l as [|x l IH]; intros seen Hin; [destruct Hin|].
  simpl. destruct Hin as [->|Hin].
  - destruct (existsb (py_eqb (meeting_id (snd r))) seen) eqn:E.
    + apply seen_after_mono, E.
    + apply seen_after_mono. simpl. rewrite py_eqb_refl. reflexivity.
  - destruct (existsb (py_eqb (meeting_id (snd x))) seen); apply IH, Hin.
Qed.

Lemma keep_first_all_seen seen l1 l2 :
  (forall r, In r l1 -> existsb (py_eqb (meeting_id (snd r))) seen = true) ->
  keep_first seen (l1 ++ l2) = keep_first seen l2.
Proof.
  induction l1 as [|r l1 IH]; intros H; [reflexivity|].
  simpl. rewrite (H r (or_introl eq_refl)). apply IH. intros r' Hr'. apply H. right. exact Hr'.
Qed.

(** Rows that are already in the first part add nothing. *)
Lemma keep_first_repeat l1 l2 l3 :
  incl l2 l1 ->
  keep_first [] (l1 ++ l2 ++ l3) = keep_first [] (l1 ++ l3).
Proof.
  intros Hincl.
  rewrite (keep_first_app [] l1 (l2 ++ l3)), (keep_first_app [] l1 l3). f_equal.
  apply keep_first_all_seen. intros r Hr. apply seen_after_in, Hincl, Hr.
Qed.

(** X16.  A committee listed twice.  Listing again a committee that is
    already earlier in the list changes nothing in what the orchestrator
    returns: the frame and the agendas are the same; the run makes the same
    agenda requests and one more meeting-list request, the one for the
    repeated committee at its place in the list. *)
Theorem district_repeated_committee :
  forall (web : remote) (site : string) (date : option (pyval * pyval))
         (pre : list string) (c : string) (post : list string)
         (log log1 : list request) (df : DataFrame) (agendas : list agenda),
    In c pre ->
    process_boarddoc_district web site (pre ++ post) date log = (Ok (df, agendas), log1) ->
    exists log2 asked,
      process_boarddoc_district web site (pre ++ c :: post) date log
      = (Ok (df, agendas), log2)
      /\ List.length log2 = S (List.length log1)
      /\ log1 = log ++ map (meetings_request site) (pre ++ post) ++ asked
      /\ log2 = log ++ map (meetings_request site) (pre ++ c :: post) ++ asked.
Proof.
  intros web site date pre c post log log1 df agendas Hc H.
  apply district_returns_inv in H as (_ & frames & Hf & Ha & -> & ->).
  apply Forall2_app_inv_l in Hf as (fpre & fpost & Hpre & Hpost & ->).
  destruct (Forall2_In_l _ _ _ c Hpre Hc) as (f & Hfin & Hfc).
  assert (Hf' : Forall2 (fun c' f' => fetched web site date c' = Ok f')
                        (pre ++ c :: post) (fpre ++ f :: fpost)).
  { apply Forall2_app; [exact Hpre | constructor; assumption]. }
  assert (Hkept : keep_first [] (flat_map rows (fpre ++ f :: fpost))
                  = keep_first [] (flat_map rows (fpre ++ fpost))).
  { rewrite !flat_map_app. simpl. apply keep_first_repeat.
    intros r Hr. apply in_flat_map. exists f. split; assumption. }
  eexists. eexists. split; [|split; [|split; [reflexivity|]]].
  - rewrite (district_run web site date (pre ++ c :: post) (fpre ++ f :: fpost) agendas log).
    + rewrite Hkept. reflexivity.
    + destruct pre; discriminate.
    + exact Hf'.
    + rewrite Hkept. exact Ha.
  - rewrite !length_app, !length_map, !length_app. simpl. lia.
  - reflexivity.
Qed.

Lemma district_repeated_committee_witness :
  exists log2 asked,
    process_boarddoc_district Sample.web Sample.site ["A"; "A"] None []
    = (Ok (mk_frame meeting_columns [sample_row 0 "1" "A" "20240101"], [sample_agenda "1"]),
       log2)
    /\ List.length log2
       = S (List.length [meetings_request Sample.site "A";
                         (agenda_url Sample.site, "id=1&current_committee_id=A")])
    /\ [meetings_request Sample.site "A";
        (agenda_url Sample.site, "id=1&current_committee_id=A")]
       = [] ++ map (meetings_request Sample.site) (["A"] ++ []) ++ asked
    /\ log2 = [] ++ map (meetings_request Sample.site) (["A"] ++ ["A"]) ++ asked.
Proof.
  exact (district_repeated_committee Sample.web Sample.site None ["A"] "A" [] []
           _ _ _ (or_introl eq_refl) eq_refl).
Defined.

(** *** The committee of a meeting that several committees list *)

Lemma existsb_py_eqb_trans v w seen :
  py_eqb v w = true -> existsb (py_eqb w) seen = true -> existsb (py_eqb v) seen = true.
Proof.
  intros Hvw H. apply existsb_exists in H as (u & Hu & Hwu).
  apply existsb_exists. exists u. split; [exact Hu|]. eapply py_eqb_trans; eassumption.
Qed.

(** A kept row comes from a frame, and no frame before it holds its
    identifier. *)
Lemma keep_first_first_frame seen frames r :
  In r (keep_first seen (flat_map rows frames)) ->
  exists fp f fq,
    frames = fp ++ f :: fq /\ In r (rows f) /\
    forall f', In f' fp ->
      Forall (fun r' => py_eqb (meeting_id (snd r')) (meeting_id (snd r)) = false) (rows f').
Proof.
  revert seen. induction frames as [|f frames IH]; intros seen H; [destruct H|].
  simpl in H. rewrite keep_first_app in H. apply in_app_or in H as [H|H].
  - exists [], f, frames. split; [reflexivity|]. split.
    + eapply subsequence_In; [apply keep_first_subsequence | exact H].
    + intros f' [].
  - pose proof (keep_first_unseen (seen_after seen (rows f)) (flat_map rows frames)) as Hun.
    rewrite Forall_forall in Hun. specialize (Hun r H).
    apply IH in H as (fp & f0 & fq & -> & Hin & Hbefore).
    exists (f :: fp), f0, fq. split; [reflexivity|]. split; [exact Hin|].
    intros f' [<-|Hf']; [|apply Hbefore, Hf'].
    apply Forall_forall. intros r' Hr'.
    destruct (py_eqb (meeting_id (snd r')) (meeting_id (snd r))) eqn:E; [|reflexivity].
    rewrite py_eqb_sym in E.
    rewrite (existsb_py_eqb_trans _ _ _ E (seen_after_in seen (rows f) r' Hr')) in Hun.
    discriminate.
Qed.

(** X17.  The committee of a shared meeting.  In what the orchestrator
    returns, the row of a meeting carries the first committee of the list
    whose fetched meetings hold that meeting: the row is one of the rows
    fetched for that committee, and no committee before it in the list has
    fetched a row with the same identifier.  The agenda of the meeting is
    therefore requested under that committee. *)
Theorem district_first_committee_wins :
  forall (web : remote) (site : string) (date : option (pyval * pyval))
         (cs : list string) (log log' : list request)
         (df : DataFrame) (agendas : list agenda) (r : nat * row),
    process_boarddoc_district web site cs date log = (Ok (df, agendas), log') ->
    In r (rows df) ->
    exists pre c post f,
      cs = pre ++ c :: post /\
      fetched web site date c = Ok f /\
      In (snd r) (map snd (rows f)) /\
      committee_id (snd r) = PyStr c /\
      (forall c' f', In c' pre -> fetched web site date c' = Ok f' ->
         Forall (fun r' => py_eqb (meeting_id (snd r')) (meeting_id (snd r)) = false)
                (rows f')).
Proof.
  intros web site date cs log log' df agendas [i r] H Hr.
  apply district_returns_inv in H as (_ & frames & Hf & _ & -> & _).
  simpl in Hr. apply in_enumerate, nth_error_In in Hr.
  apply in_map_iff in Hr as ([k r0] & Hk & Hin). simpl in Hk. subst r0.
  apply keep_first_first_frame in Hin as (fp & f & fq & -> & Hrf & Hbefore).
  apply Forall2_app_inv_r in Hf as (pre & rest & Hpre & Hrest & ->).
  inversion Hrest as [|c f0 post fq0 Hc Hpost]; subst.
  exists pre, c, post, f. split; [reflexivity|]. split; [exact Hc|].
  split; [apply (in_map snd _ _ Hrf)|]. split.
  - apply fetched_rows_projected in Hc. rewrite Forall_forall in Hc.
    destruct (Hc _ Hrf) as [Hcom _]. exact Hcom.
  - intros c' f' Hc' Hf'.
    destruct (Forall2_In_l _ _ _ c' Hpre Hc') as (y & Hy & Hcy).
    assert (y = f') by congruence. subst y.
    apply (Hbefore f' Hy).
Qed.

Lemma district_first_committee_wins_witness :
  exists pre c post f,
    ["B"; "A"] = pre ++ c :: post /\
    fetched Sample.web Sample.site (Some (PyStr "20240101", PyStr "20240101")) c = Ok f /\
    In (snd (sample_row 0 "1" "B" "20240101")) (map snd (rows f)) /\
    committee_id (snd (sample_row 0 "1" "B" "20240101")) = PyStr c /\
    (forall c' f', In c' pre ->
       fetched Sample.web Sample.site (Some (PyStr "20240101", PyStr "20240101")) c' = Ok f' ->
       Forall (fun r' => py_eqb (meeting_id (snd r'))
                           (meeting_id (snd (sample_row 0 "1" "B" "20240101"))) = false)
              (rows f')).
Proof.
  refine (district_first_committee_wins Sample.web Sample.site
            (Some (PyStr "20240101", PyStr "20240101")) ["B"; "A"] []
            [meetings_request Sample.site "B"; meetings_request Sample.site "A";
             (agenda_url Sample.site, "id=1&current_committee_id=B")]
            (mk_frame meeting_columns [sample_row 0 "1" "B" "20240101"])
            [sample_agenda "1"] (sample_row 0 "1" "B" "20240101") _ _).
  - reflexivity.
  - left. reflexivity.
Defined.
